(** * Export_Networks_Individually.py: a shallow embedding

    The script fetches paginated FHIR bundles over HTTP, flattens selected
    fields and writes them to CSV files.  The embedding below follows
    [src/consulting/careignition/Export_Networks_Individually.py] statement
    by statement:

    - Python values decoded from JSON are the inductive [value];
    - an operation that may raise returns a [result];
    - the outside world (requests issued, lines printed, files written) is
      the record [world], threaded explicitly;
    - the two [while] loops may run for ever, so they take fuel and return
      [None] when it runs out;
    - [requests.get] and [str] on non-string values belong to libraries,
      and whether a file opens and takes a write is up to the system: they
      are section variables. *)

From Stdlib Require Import ZArith List String Ascii Bool Lia Floats DecimalString.
Import ListNotations.
Local Open Scope string_scope.
Local Open Scope list_scope.

Set Implicit Arguments.

(** ** Python values *)

(** What [response.json()] can return.  A JSON object becomes a [dict] whose
    keys are strings; it is kept as the list of its items in insertion
    order, keys distinct, so that [lookup] finds the only binding of a key.
    A [str] is a Rocq string with one [ascii] per character: the model
    holds the texts whose characters have a code point below 256, and a
    loop over such a text goes character by character. *)
#[warnings="-register-all"]
Inductive value : Type :=
| VNone
| VBool (b : bool)
| VInt (z : Z)
| VFloat (f : float)
| VStr (s : string)
| VList (l : list value)
| VDict (d : list (string * value)).

Inductive exn : Type :=
| KeyError (key : string)
| TypeError
| AttributeError (attr : string)
| Exception (msg : string)
| LibraryError (cls msg : string).

Inductive result (A : Type) : Type :=
| Ok (a : A)
| Raise (e : exn).
Arguments Raise {A} e.

Definition bind {A B : Type} (r : result A) (k : A -> result B) : result B :=
  match r with
  | Ok a => k a
  | Raise e => Raise e
  end.

Notation "x <- e ;; k" := (bind e (fun x => k))
  (at level 61, e at next level, right associativity).

Definition is_ok {A : Type} (r : result A) : bool :=
  match r with Ok _ => true | Raise _ => false end.

Fixpoint mapM {A B : Type} (f : A -> result B) (l : list A) : result (list B) :=
  match l with
  | [] => Ok []
  | a :: rest => b <- f a ;; bs <- mapM f rest ;; Ok (b :: bs)
  end.

(** ** Operations of the language on values *)

Fixpoint lookup (key : string) (d : list (string * value)) : option value :=
  match d with
  | [] => None
  | (k, v) :: rest => if String.eqb k key then Some v else lookup key rest
  end.

(** [x.get(key, default)]: only a dict has the method. *)
Definition py_get (x : value) (key : string) (default : value) : result value :=
  match x with
  | VDict d => match lookup key d with
               | Some v => Ok v
               | None => Ok default
               end
  | _ => Raise (AttributeError "get")
  end.

(** [x[key]] with a string key: a missing key of a dict is a [KeyError],
    anything else cannot be indexed by a string. *)
Definition py_getitem (x : value) (key : string) : result value :=
  match x with
  | VDict d => match lookup key d with
               | Some v => Ok v
               | None => Raise (KeyError key)
               end
  | _ => Raise TypeError
  end.

(** [x == 'literal']. *)
Definition py_eq_str (x : value) (s : string) : bool :=
  match x with
  | VStr t => String.eqb t s
  | _ => false
  end.

(** [key in x]: key membership for a dict, element membership for a list,
    substring test for a string. *)
Definition py_contains (key : string) (x : value) : result bool :=
  match x with
  | VDict d => Ok (match lookup key d with Some _ => true | None => false end)
  | VList l => Ok (existsb (fun v => py_eq_str v key) l)
  | VStr s => Ok (match String.index 0 key s with Some _ => true | None => false end)
  | _ => Raise TypeError
  end.

Fixpoint chars (s : string) : list value :=
  match s with
  | EmptyString => []
  | String c rest => VStr (String c EmptyString) :: chars rest
  end.

(** What a [for] loop, or [list.extend], draws from [x]. *)
Definition py_iter (x : value) : result (list value) :=
  match x with
  | VList l => Ok l
  | VStr s => Ok (chars s)
  | VDict d => Ok (map (fun kv => VStr (fst kv)) d)
  | _ => Raise TypeError
  end.

(** Truth value, as tested by [while x:]. *)
Definition py_truthy (x : value) : bool :=
  match x with
  | VNone => false
  | VBool b => b
  | VInt z => negb (Z.eqb z 0)
  | VFloat f => negb (PrimFloat.eqb f PrimFloat.zero)
  | VStr s => negb (String.eqb s "")
  | VList l => match l with [] => false | _ => true end
  | VDict d => match d with [] => false | _ => true end
  end.

(** [sep.join(items)]: every item has to be a [str]. *)
Fixpoint py_join (sep : string) (items : list value) : result string :=
  match items with
  | [] => Ok ""
  | VStr s :: [] => Ok s
  | VStr s :: rest => t <- py_join sep rest ;; Ok (s ++ sep ++ t)%string
  | _ :: _ => Raise TypeError
  end.

(** [f"{n}"] for an [int]. *)
Definition format_int (n : Z) : string := NilZero.string_of_int (Z.to_int n).

(** ** The outside world *)

Record response : Type := mkResponse {
  status_code : Z;
  json : result value   (* what [response.json()] returns or raises *)
}.

Record request : Type := mkRequest {
  req_url : value;
  req_headers : list (string * string)
}.

(** A line on standard output: [print(s)] for a string, [print(e)] for a
    caught exception. *)
Inductive output : Type :=
| Line (s : string)
| ExnLine (e : exn).

Record world : Type := mkWorld {
  requests : list request;          (* GET requests issued so far, oldest first *)
  stdout : list output;             (* lines printed so far, oldest first *)
  files : string -> option string   (* text of each file, by path *)
}.

Definition log_request (url : value) (headers : list (string * string)) (w : world) : world :=
  mkWorld (requests w ++ [mkRequest url headers]) (stdout w) (files w).

Definition print (o : output) (w : world) : world :=
  mkWorld (requests w) (stdout w ++ [o]) (files w).

(** [with open(path, 'w', ...) as f: ...], once the file is open: it was
    emptied on opening, and when the block is left, normally or by an
    exception, it holds the text of the writes that went through.  Whether
    the opening and each write go through is decided by [open_error] and
    [write_error] below. *)
Definition write_file (path text : string) (w : world) : world :=
  mkWorld (requests w) (stdout w)
          (fun p => if String.eqb p path then Some text else files w p).

(** ** The [csv] module, excel dialect

    [csv.writer(file)] and [csv.DictWriter(file, fieldnames)] are used with
    their defaults: comma as delimiter, the double quote as quote character,
    minimal quoting with doubled quotes, and the line terminator CR LF.
    Both files are opened with [newline=''], so the terminator reaches the
    file unchanged. *)

Definition delimiter : ascii := ascii_of_nat 44.
Definition quotechar : ascii := ascii_of_nat 34.
Definition CR : ascii := ascii_of_nat 13.
Definition LF : ascii := ascii_of_nat 10.
Definition lineterminator : string := String CR (String LF "").

Definition special (c : ascii) : bool :=
  Ascii.eqb c delimiter || Ascii.eqb c quotechar || Ascii.eqb c CR || Ascii.eqb c LF.

Fixpoint has_special (s : string) : bool :=
  match s with
  | EmptyString => false
  | String c rest => special c || has_special rest
  end.

Fixpoint double_quotes (s : string) : string :=
  match s with
  | EmptyString => EmptyString
  | String c rest =>
      if Ascii.eqb c quotechar then String c (String c (double_quotes rest))
      else String c (double_quotes rest)
  end.

Definition csv_field (text : string) : string :=
  if has_special text
  then (String quotechar (double_quotes text) ++ String quotechar "")%string
  else text.

Section Program.

(** [requests.get(url, headers=...)]: the server, and the library in front
    of it.  It answers a request the same way each time it is asked. *)
Variable requests_get : value -> list (string * string) -> result response.

(** [str(x)] for a value that is neither [None] nor a [str]. *)
Variable py_str : value -> string.

(** [open(path, 'w', newline='', encoding=...)]: the exception it raises,
    if any (no such directory, no permission...).  The second argument is
    the encoding asked for, [None] when the call leaves it to the locale. *)
Variable open_error : string -> option string -> option exn.

(** [file.write(text)] on a file opened so, which is what [writerow] ends
    with: the exception it raises, if any (a character the encoding cannot
    take, a device that refuses the data...).  A line is written whole or
    not at all. *)
Variable write_error : string -> option string -> string -> option exn.

(** The text the writer takes for a field. *)
Definition field_text (v : value) : string :=
  match v with
  | VNone => ""
  | VStr s => s
  | _ => py_str v
  end.

(** [writer.writerow(row)]: the text appended to the file.  A row made of a
    single empty field is written as a pair of quotes. *)
Definition writerow (row : list value) : string :=
  let texts := map field_text row in
  match texts with
  | [EmptyString] => (String quotechar (String quotechar "") ++ lineterminator)%string
  | _ => (String.concat (String delimiter "") (map csv_field texts) ++ lineterminator)%string
  end.

(** *** Step 2: [export_org_id_to_csv] *)

Definition headers : list (string * string) := [("Accept", "application/fhir+json")].

(** Lines 41-45: the [for] loop that looks for the next page. *)
Fixpoint org_next_link (links : list value) : result value :=
  match links with
  | [] => Ok VNone
  | link :: rest =>
      relation <- py_get link "relation" VNone ;;
      if py_eq_str relation "next" then py_get link "url" VNone
      else org_next_link rest
  end.

(** Lines 38-45: what one page with status 200 does to [all_entries] and
    [api_url_1]. *)
Definition org_page (all_entries : list value) (data : value)
  : result (list value * value) :=
  entry <- py_get data "entry" (VList []) ;;
  items <- py_iter entry ;;
  link <- py_get data "link" (VList []) ;;
  links <- py_iter link ;;
  next <- org_next_link links ;;
  Ok (all_entries ++ items, next).

(** Lines 31-49: the [while] loop. *)
Fixpoint org_fetch (fuel : nat) (api_url_1 : value) (all_entries : list value)
  (w : world) : option (world * result (list value)) :=
  if py_truthy api_url_1 then
    match fuel with
    | O => None
    | S fuel' =>
        let w1 := log_request api_url_1 headers w in
        match requests_get api_url_1 headers with
        | Raise e => Some (w1, Raise e)
        | Ok response =>
            if (status_code response =? 200)%Z then
              match (data <- json response ;; org_page all_entries data) with
              | Raise e => Some (w1, Raise e)
              | Ok (all_entries', next) => org_fetch fuel' next all_entries' w1
              end
            else
              Some (print (Line ("Failed to retrieve data: "
                                 ++ format_int (status_code response))%string) w1,
                    Ok all_entries)
        end
    end
  else Some (w, Ok all_entries).

(** Lines 60-71: the row written for one entry. *)
Definition org_row (entry : value) : result (list value) :=
  organization <- py_get entry "resource" (VDict []) ;;
  org_id <- py_get organization "id" (VStr "") ;;
  org_name <- py_get organization "name" (VStr "") ;;
  identifiers <- py_get organization "identifier" (VList []) ;;
  items <- py_iter identifiers ;;
  identifier_values <- mapM (fun identifier => py_get identifier "value" (VStr "")) items ;;
  identifier_str <- py_join ", " identifier_values ;;
  Ok [org_id; org_name; VStr identifier_str].

(** Lines 59-71: the rows are appended one at a time; when flattening an
    entry or writing its row raises, what was written before it stays in
    the file.  The file was opened with [encoding='utf-8'] (line 52). *)
Fixpoint org_write_rows (filename : string) (all_entries : list value) (text : string)
  : string * result unit :=
  match all_entries with
  | [] => (text, Ok tt)
  | entry :: rest =>
      match org_row entry with
      | Raise e => (text, Raise e)
      | Ok row =>
          match write_error filename (Some "utf-8") (writerow row) with
          | Some e => (text, Raise e)
          | None => org_write_rows filename rest (text ++ writerow row)%string
          end
      end
  end.

Definition org_header : list value := [VStr "id"; VStr "name"; VStr "identifiers"].

(** Lines 53-71: the body of the [with] block, header row first. *)
Definition org_write (filename : string) (all_entries : list value)
  : string * result unit :=
  match write_error filename (Some "utf-8") (writerow org_header) with
  | Some e => (EmptyString, Raise e)
  | None => org_write_rows filename all_entries (writerow org_header)
  end.

(** Lines 27-73. *)
Definition export_org_id_to_csv (fuel : nat) (api_url_1 : value) (filename : string)
  (w : world) : option (world * result unit) :=
  match org_fetch fuel api_url_1 [] w with
  | None => None
  | Some (w1, Raise e) => Some (w1, Raise e)
  | Some (w1, Ok all_entries) =>
      match open_error filename (Some "utf-8") with
      | Some e => Some (w1, Raise e)
      | None =>
          let (text, r) := org_write filename all_entries in
          let w2 := write_file filename text w1 in
          match r with
          | Raise e => Some (w2, Raise e)
          | Ok _ =>
              Some (print (Line ("Data has been exported to " ++ filename)%string) w2,
                    Ok tt)
          end
      end
  end.

(** *** Step 3: [fetch_all_data] and [extract_networks] *)

(** Lines 116-120. *)
Fixpoint net_next_link (links : list value) : result value :=
  match links with
  | [] => Ok VNone
  | link :: rest =>
      relation <- py_getitem link "relation" ;;
      if py_eq_str relation "next" then py_getitem link "url"
      else net_next_link rest
  end.

(** Lines 113-120. *)
Definition net_page (all_data : list value) (data : value)
  : result (list value * value) :=
  has_entry <- py_contains "entry" data ;;
  all_data' <- (if has_entry : bool
                then entry <- py_getitem data "entry" ;;
                     items <- py_iter entry ;;
                     Ok (all_data ++ items)
                else Ok all_data) ;;
  link <- py_get data "link" (VList []) ;;
  links <- py_iter link ;;
  next <- net_next_link links ;;
  Ok (all_data', next).

(** Lines 107-123, started with [all_data] instead of the empty list. *)
Fixpoint fetch_all_data_from (fuel : nat) (api_url_2 : value) (all_data : list value)
  (w : world) : option (world * result (list value)) :=
  if py_truthy api_url_2 then
    match fuel with
    | O => None
    | S fuel' =>
        let w1 := log_request api_url_2 [] w in
        match requests_get api_url_2 [] with
        | Raise e => Some (w1, Raise e)
        | Ok response =>
            if (status_code response =? 200)%Z then
              match (data <- json response ;; net_page all_data data) with
              | Raise e => Some (w1, Raise e)
              | Ok (all_data', next) => fetch_all_data_from fuel' next all_data' w1
              end
            else
              Some (w1, Raise (Exception ("Failed to fetch data. Status code: "
                                          ++ format_int (status_code response))%string))
        end
    end
  else Some (w, Ok all_data).

Definition fetch_all_data (fuel : nat) (api_url_2 : value) (w : world)
  : option (world * result (list value)) :=
  fetch_all_data_from fuel api_url_2 [] w.

Definition network_reference : string :=
  "http://hl7.org/fhir/us/davinci-pdex-plan-net/StructureDefinition/network-reference".

(** The dict appended at lines 141-144. *)
Record network_row : Type := mkNetwork {
  practitionerRole : value;
  network : value
}.

(** Lines 138-144: the inner loop over the extensions of one resource. *)
Fixpoint extract_extensions (practitioner_role : value) (exts : list value)
  : result (list network_row) :=
  match exts with
  | [] => Ok []
  | ext :: rest =>
      url <- py_getitem ext "url" ;;
      if py_eq_str url network_reference then
        value_reference <- py_get ext "valueReference" (VDict []) ;;
        role_id <- py_getitem practitioner_role "id" ;;
        fallback <- py_get value_reference "reference" (VStr "Unknown") ;;
        name <- py_get value_reference "display" fallback ;;
        more <- extract_extensions practitioner_role rest ;;
        Ok (mkNetwork role_id name :: more)
      else extract_extensions practitioner_role rest
  end.

(** Lines 137-144: one turn of the outer loop. *)
Definition extract_entry (entry : value) : result (list network_row) :=
  practitioner_role <- py_getitem entry "resource" ;;
  extension <- py_get practitioner_role "extension" (VList []) ;;
  exts <- py_iter extension ;;
  extract_extensions practitioner_role exts.

(** Lines 134-145. *)
Fixpoint extract_networks (data : list value) : result (list network_row) :=
  match data with
  | [] => Ok []
  | entry :: rest =>
      rows <- extract_entry entry ;;
      more <- extract_networks rest ;;
      Ok (rows ++ more)
  end.

(** *** Step 4: the top-level block that writes the networks *)

Definition api_url_2 : string :=
  "https://cmsmanapi.anthem.com/fhir/cms_mandate/mcd/PractitionerRole?organization=Organization/484295".

Definition fieldnames : list string := ["practitionerRole"; "network"].

(** [DictWriter.writerow(network)]: the values in the order of [fieldnames]. *)
Definition dict_to_list (n : network_row) : list value :=
  [practitionerRole n; network n].

(** Lines 173-174: the rows are appended one at a time; when writing one
    raises, what was written before it stays in the file.  The file was
    opened without [encoding] (line 168). *)
Fixpoint networks_write_rows (networks : list network_row) (text : string)
  : string * result unit :=
  match networks with
  | [] => (text, Ok tt)
  | n :: rest =>
      match write_error "associated_networks.csv" None (writerow (dict_to_list n)) with
      | Some e => (text, Raise e)
      | None => networks_write_rows rest (text ++ writerow (dict_to_list n))%string
      end
  end.

(** Lines 169-174: the body of the [with] block, [writer.writeheader()]
    first. *)
Definition networks_write (networks : list network_row) : string * result unit :=
  match write_error "associated_networks.csv" None (writerow (map VStr fieldnames)) with
  | Some e => (EmptyString, Raise e)
  | None => networks_write_rows networks (writerow (map VStr fieldnames))
  end.

(** Lines 161-178: [try: ... except Exception as e: print(e)].  Whatever
    is raised inside, by the fetching, the extraction, the opening of the
    file or a write, is caught and printed. *)
Definition export_networks (fuel : nat) (w : world) : option world :=
  match fetch_all_data fuel (VStr api_url_2) w with
  | None => None
  | Some (w1, Raise e) => Some (print (ExnLine e) w1)
  | Some (w1, Ok data) =>
      match extract_networks data with
      | Raise e => Some (print (ExnLine e) w1)
      | Ok networks =>
          match open_error "associated_networks.csv" None with
          | Some e => Some (print (ExnLine e) w1)
          | None =>
              let (text, r) := networks_write networks in
              let w2 := write_file "associated_networks.csv" text w1 in
              match r with
              | Raise e => Some (print (ExnLine e) w2)
              | Ok _ =>
                  Some (print (Line "Associated networks have been saved to 'associated_networks.csv'") w2)
              end
          end
      end
  end.

End Program.

Unset Implicit Arguments.

(** ** The shape of the data, as the specification describes it

    The definitions of this part are not taken from the script: they say
    what a bundle entry holds, field by field, every field being optional.
    The theorems compare the script with them. *)

Definition field (d : list (string * value)) (key : string) (default : value) : value :=
  match lookup key d with
  | Some v => v
  | None => default
  end.

(** The [resource] object of an entry, empty when there is none. *)
Definition resource_of (entry : value) : list (string * value) :=
  match entry with
  | VDict d => match lookup "resource" d with
               | Some (VDict r) => r
               | _ => []
               end
  | _ => []
  end.

Definition list_field (d : list (string * value)) (key : string) : list value :=
  match lookup key d with
  | Some (VList l) => l
  | _ => []
  end.

Definition identifier_value (identifier : value) : string :=
  match identifier with
  | VDict d => match lookup "value" d with
               | Some (VStr s) => s
               | _ => ""
               end
  | _ => ""
  end.

(** The flat record of an organization entry: [id], [name], [identifiers]. *)
Definition organization_record (entry : value) : list value :=
  let r := resource_of entry in
  [ field r "id" (VStr "");
    field r "name" (VStr "");
    VStr (String.concat ", " (map identifier_value (list_field r "identifier"))) ].

(** An identifier is an object whose [value], when present, is a string. *)
Definition is_identifier (v : value) : bool :=
  match v with
  | VDict d => match lookup "value" d with
               | None | Some (VStr _) => true
               | Some _ => false
               end
  | _ => false
  end.

(** A list-valued field is absent or an array of items satisfying [item]. *)
Definition optional_list (item : value -> bool) (d : list (string * value))
  (key : string) : bool :=
  match lookup key d with
  | None => true
  | Some (VList l) => forallb item l
  | Some _ => false
  end.

(** An organization entry is an object whose [resource], when present, is an
    object whose [identifier], when present, is an array of identifiers.
    [id] and [name] are unconstrained. *)
Definition is_organization_entry (entry : value) : bool :=
  match entry with
  | VDict d => match lookup "resource" d with
               | None => true
               | Some (VDict r) => optional_list is_identifier r "identifier"
               | Some _ => false
               end
  | _ => false
  end.

(** A network-reference extension: an object whose [url] is the URL that
    the specification names. *)
Definition is_network_extension (ext : value) : bool :=
  match ext with
  | VDict d =>
      match lookup "url" d with
      | Some url =>
          py_eq_str url
            "http://hl7.org/fhir/us/davinci-pdex-plan-net/StructureDefinition/network-reference"
      | None => false
      end
  | _ => false
  end.

(** The network named by an extension: [display], else [reference], else
    the word Unknown. *)
Definition network_name (ext : value) : value :=
  match ext with
  | VDict d =>
      match lookup "valueReference" d with
      | Some (VDict vr) =>
          match lookup "display" vr with
          | Some v => v
          | None => match lookup "reference" vr with
                    | Some v => v
                    | None => VStr "Unknown"
                    end
          end
      | _ => VStr "Unknown"
      end
  | _ => VStr "Unknown"
  end.

(** One pair per network-reference extension of the entry. *)
Definition network_pairs (entry : value) : list network_row :=
  let r := resource_of entry in
  map (fun ext => mkNetwork (field r "id" VNone) (network_name ext))
      (filter is_network_extension (list_field r "extension")).

(** An extension is an object with a [url] whose [valueReference], when
    present, is an object. *)
Definition is_extension (v : value) : bool :=
  match v with
  | VDict d => match lookup "url" d, lookup "valueReference" d with
               | Some _, (None | Some (VDict _)) => true
               | _, _ => false
               end
  | _ => false
  end.

(** A practitioner-role entry is an object with a [resource] object whose
    [extension], when present, is an array of extensions, and which has an
    [id] as soon as one of them is a network reference. *)
Definition is_role_entry (entry : value) : bool :=
  match entry with
  | VDict d =>
      match lookup "resource" d with
      | Some (VDict r) =>
          optional_list is_extension r "extension"
          && (match lookup "id" r with
              | Some _ => true
              | None => negb (existsb is_network_extension (list_field r "extension"))
              end)
      | _ => false
      end
  | _ => false
  end.

(** ** Pages and chains of pages

    Again in the words of the specification: a response body is an object
    with an [entry] array and a [link] array of objects carrying a
    [relation] and a [url], either array being optional. *)

Record page : Type := mkPage {
  page_url : string;
  page_data : value
}.

Definition is_object (v : value) : bool :=
  match v with
  | VDict _ => true
  | _ => false
  end.

Definition is_link (v : value) : bool :=
  match v with
  | VDict d => match lookup "relation" d, lookup "url" d with
               | Some _, Some _ => true
               | _, _ => false
               end
  | _ => false
  end.

(** A link whose relation equals [next]. *)
Definition is_next (link : value) : bool :=
  match link with
  | VDict d => match lookup "relation" d with
               | Some relation => py_eq_str relation "next"
               | None => false
               end
  | _ => false
  end.

Definition link_url (link : value) : value :=
  match link with
  | VDict d => field d "url" VNone
  | _ => VNone
  end.

Definition entries_of (data : value) : list value :=
  match data with
  | VDict d => list_field d "entry"
  | _ => []
  end.

Definition links_of (data : value) : list value :=
  match data with
  | VDict d => list_field d "link"
  | _ => []
  end.

Definition is_bundle (data : value) : bool :=
  match data with
  | VDict d => optional_list (fun _ => true) d "entry" && optional_list is_link d "link"
  | _ => false
  end.

(** The next link of a page is the first of its links whose relation is
    [next]. *)
Definition next_link (data : value) : option value :=
  find is_next (links_of data).

Definition all_entries_of (pages : list page) : list value :=
  flat_map (fun p => entries_of (page_data p)) pages.

Definition first_url (pages : list page) : value :=
  match pages with
  | p :: _ => VStr (page_url p)
  | [] => VNone
  end.

(** The world after GET requests to [urls], in that order. *)
Definition visit (hdrs : list (string * string)) (urls : list string) (w : world) : world :=
  mkWorld (requests w ++ map (fun u => mkRequest (VStr u) hdrs) urls) (stdout w) (files w).

Section Chains.

Variable requests_get : value -> list (string * string) -> result response.
Variable hdrs : list (string * string).

(** The server answers a GET at the page's URL with status 200 and the
    page's data. *)
Definition served (p : page) : Prop :=
  page_url p <> ""
  /\ requests_get (VStr (page_url p)) hdrs = Ok (mkResponse 200 (Ok (page_data p)))
  /\ is_bundle (page_data p) = true.

(** Pages 1..N-1 each have a next link pointing to the following page, and
    page N has no next link. *)
Inductive chain : list page -> Prop :=
| chain_last (p : page) :
    served p -> next_link (page_data p) = None -> chain [p]
| chain_next (p q : page) (rest : list page) (link : value) :
    served p ->
    next_link (page_data p) = Some link ->
    link_url link = VStr (page_url q) ->
    chain (q :: rest) ->
    chain (p :: q :: rest).

(** Starting at [start], the pages are served one after another, each
    pointing to the next, and the last one (or [start] itself when there is
    no page) leads to [failing], where the server answers with a status
    [code] other than 200. *)
Inductive broken_chain (code : Z) (failing : string) : string -> list page -> Prop :=
| broken_here (r : response) :
    failing <> "" ->
    requests_get (VStr failing) hdrs = Ok r ->
    status_code r = code ->
    code <> 200%Z ->
    broken_chain code failing failing []
| broken_later (p : page) (rest : list page) (link : value) (u : string) :
    served p ->
    next_link (page_data p) = Some link ->
    link_url link = VStr u ->
    broken_chain code failing u rest ->
    broken_chain code failing (page_url p) (p :: rest).

End Chains.

(** Where a page sends the paginator. *)
Definition next_of (data : value) : value :=
  match next_link data with
  | Some link => link_url link
  | None => VNone
  end.

(** ** The text of a delimited file *)

(** The lines of a file, one after the other. *)
Definition text_of_lines (lines : list string) : string :=
  fold_right String.append "" lines.

(** A record as a line of delimited text: the fields in order, quoted where
    needed, separated by commas, ended by CR LF. *)
Definition csv_line (texts : list string) : string :=
  (String.concat "," (map csv_field texts) ++ lineterminator)%string.

(** ** Worked examples

    A small server, with two pages of organizations, one page of
    practitioner roles at [api_url_2], a page that leads to a URL that is
    down, and status 503 everywhere else. *)

Definition empty_world : world := mkWorld [] [] (fun _ => None).

(** [str] on integers and booleans, which is all the examples need. *)
Definition str_of_scalar (v : value) : string :=
  match v with
  | VInt z => format_int z
  | VBool true => "True"
  | VBool false => "False"
  | _ => ""
  end.

Definition link_to (relation url : string) : value :=
  VDict [("relation", VStr relation); ("url", VStr url)].

Definition cottage_hospital : value :=
  VDict [("resource",
          VDict [("id", VStr "484295");
                 ("name", VStr "Cottage Hospital");
                 ("identifier", VList [VDict [("value", VStr "A")];
                                       VDict [("value", VStr "B")]])])].

Definition nameless : value := VDict [("resource", VDict [("id", VInt 7)])].

Definition network_extension (value_reference : list (string * value)) : value :=
  VDict [("url",
          VStr "http://hl7.org/fhir/us/davinci-pdex-plan-net/StructureDefinition/network-reference");
         ("valueReference", VDict value_reference)].

Definition role_resource : list (string * value) :=
  [("id", VStr "role-1");
   ("extension",
    VList [VDict [("url", VStr "http://example.org/other")];
           network_extension [("reference", VStr "Organization/1");
                              ("display", VStr "Blue Network")];
           network_extension []])].

Definition role : value := VDict [("resource", VDict role_resource)].

Definition page1 : page :=
  mkPage "https://example.org/page1"
    (VDict [("entry", VList [cottage_hospital]);
            ("link", VList [link_to "self" "https://example.org/page1";
                            link_to "next" "https://example.org/page2"])]).

Definition page2 : page :=
  mkPage "https://example.org/page2"
    (VDict [("entry", VList [nameless]);
            ("link", VList [link_to "self" "https://example.org/page2"])]).

Definition roles : page :=
  mkPage api_url_2 (VDict [("entry", VList [role])]).

Definition last_good : page :=
  mkPage "https://example.org/last-good"
    (VDict [("entry", VList [cottage_hospital]);
            ("link", VList [link_to "next" "https://example.org/down"])]).

Definition serve (pages : list page) (url : value) (hdrs : list (string * string))
  : result response :=
  match url with
  | VStr u =>
      match find (fun p => String.eqb (page_url p) u) pages with
      | Some p => Ok (mkResponse 200 (Ok (page_data p)))
      | None => Ok (mkResponse 503 (Raise (LibraryError "JSONDecodeError" "Expecting value")))
      end
  | _ => Raise (LibraryError "MissingSchema" "Invalid URL")
  end.

Definition example_server := serve [page1; page2; roles; last_good].

(** A server that is down altogether. *)
Definition down_server := serve [].

(** A page of practitioner roles whose [link] array holds its next link
    first and then an object without [relation]. *)
Definition stray_link : list (string * value) := [("url", VStr "https://example.org/stray")].

Definition roles1 : page :=
  mkPage "https://example.org/roles1"
    (VDict [("entry", VList [role]);
            ("link", VList [link_to "next" "https://example.org/roles2";
                            VDict stray_link])]).

Definition roles2 : page :=
  mkPage "https://example.org/roles2" (VDict [("entry", VList [role])]).

(** The same page with the two links in the other order. *)
Definition roles3 : page :=
  mkPage "https://example.org/roles3"
    (VDict [("entry", VList [role]);
            ("link", VList [link_to "self" "https://example.org/roles3";
                            VDict stray_link;
                            link_to "next" "https://example.org/roles2"])]).

Definition stray_server := serve [roles1; roles2; roles3].

(** ** The call of lines 80-81 *)

Definition api_url_1 : string :=
  "https://cmsmanapi.anthem.com/fhir/cms_mandate/mcd/Organization?name=Cottage%20Hospital".

(** [export_org_id_to_csv(api_url_1)], the file name being the default of
    line 27. *)
Definition export_organizations
  (requests_get : value -> list (string * string) -> result response)
  (py_str : value -> string)
  (open_error : string -> option string -> option exn)
  (write_error : string -> option string -> string -> option exn)
  (fuel : nat) (w : world) : option (world * result unit) :=
  export_org_id_to_csv requests_get py_str open_error write_error fuel
    (VStr api_url_1) "organization_ids.csv" w.

(** ** More words for the statements *)

Definition result_map {A B : Type} (f : A -> B) (r : result A) : result B :=
  match r with
  | Ok a => Ok (f a)
  | Raise e => Raise e
  end.

(** The outcome of a loop started with [all] already gathered, from its
    outcome when started with nothing. *)
Definition gathered_after (all : list value)
  (outcome : option (world * result (list value))) : option (world * result (list value)) :=
  option_map (fun x => (fst x, result_map (app all) (snd x))) outcome.

(** What [identifier] may hold for the flattener to go through: an array
    of identifiers, or an empty string or object, which a [for] loop
    traverses without a turn. *)
Definition identifiers_accepted (v : value) : bool :=
  match v with
  | VList l => forallb is_identifier l
  | VStr s => String.eqb s ""
  | VDict d => match d with [] => true | _ => false end
  | _ => false
  end.

(** The entries that the flattener takes without raising. *)
Definition flattens (entry : value) : bool :=
  match entry with
  | VDict d =>
      match lookup "resource" d with
      | None => true
      | Some (VDict r) =>
          match lookup "identifier" r with
          | None => true
          | Some v => identifiers_accepted v
          end
      | Some _ => false
      end
  | _ => false
  end.

(** What the inner loop of [extract_networks] takes without raising: an
    object with a [url]; when that is the network reference, the resource
    must have an [id] and [valueReference] must be absent or an object. *)
Definition extension_accepted (r : list (string * value)) (ext : value) : bool :=
  match ext with
  | VDict d =>
      match lookup "url" d with
      | None => false
      | Some url =>
          if py_eq_str url
               "http://hl7.org/fhir/us/davinci-pdex-plan-net/StructureDefinition/network-reference"
          then
            match lookup "id" r, lookup "valueReference" d with
            | Some _, (None | Some (VDict _)) => true
            | _, _ => false
            end
          else true
      end
  | _ => false
  end.

(** The entries that [extract_networks] takes without raising. *)
Definition extracts (entry : value) : bool :=
  match entry with
  | VDict e =>
      match lookup "resource" e with
      | Some (VDict r) =>
          match lookup "extension" r with
          | None => true
          | Some (VList l) => forallb (extension_accepted r) l
          | Some (VStr s) => String.eqb s ""
          | Some (VDict d) => match d with [] => true | _ => false end
          | Some _ => false
          end
      | _ => false
      end
  | _ => false
  end.

(** ** More examples *)

(** A page whose next link leads back to itself. *)
Definition loop_page : page :=
  mkPage "https://example.org/loop"
    (VDict [("entry", VList [cottage_hospital]);
            ("link", VList [link_to "next" "https://example.org/loop"])]).

(** A page whose next link carries a null [url]. *)
Definition null_next_page : page :=
  mkPage "https://example.org/null-next"
    (VDict [("entry", VList [cottage_hospital]);
            ("link", VList [VDict [("relation", VStr "next"); ("url", VNone)]])]).

(** A page whose next link has no [url], followed by a second next link. *)
Definition bare_next_page : page :=
  mkPage "https://example.org/bare-next"
    (VDict [("entry", VList [role]);
            ("link", VList [link_to "self" "https://example.org/bare-next";
                            VDict [("relation", VStr "next")];
                            link_to "next" "https://example.org/page2"])]).

(** A page with two next links and, after them, something that is not a
    link at all. *)
Definition two_next_page : page :=
  mkPage "https://example.org/two-next"
    (VDict [("entry", VList [role]);
            ("link", VList [link_to "self" "https://example.org/two-next";
                            link_to "next" "https://example.org/roles2";
                            link_to "next" "https://example.org/elsewhere";
                            VInt 0])]).

(** A page holding a good entry, then one that is not an object. *)
Definition mixed_page : page :=
  mkPage "https://example.org/mixed"
    (VDict [("entry", VList [cottage_hospital; VInt 3; nameless])]).

Definition odd_server :=
  serve [loop_page; null_next_page; bare_next_page; two_next_page; mixed_page;
         page2; roles2].

(** A server whose answers have status 200 and a body that is not JSON. *)
Definition garbled_server (url : value) (hdrs : list (string * string)) : result response :=
  Ok (mkResponse 200 (Raise (LibraryError "JSONDecodeError" "Expecting value"))).

(** A world in which both files exist already. *)
Definition old_world : world :=
  mkWorld [] []
    (fun p => if String.eqb p "organization_ids.csv" then Some "old organizations"
              else if String.eqb p "associated_networks.csv" then Some "old networks"
              else None).

(** ** The delimited text the specification expects

    Said without the writer above: a cell is put between double quotes,
    its own double quotes doubled, when it holds a comma, a double quote,
    a CR or a LF; the cells of a record are separated by commas and the
    record is ended by CR LF; a file is its header record followed by its
    records. *)

Definition crlf : string := String "013" (String "010" EmptyString).

Definition needs_quotes (text : string) : bool :=
  existsb (fun c => existsb (Ascii.eqb c) [","%char; "034"%char; "013"%char; "010"%char])
          (list_ascii_of_string text).

Definition doubled (text : string) : string :=
  string_of_list_ascii
    (flat_map (fun c => if Ascii.eqb c "034" then [c; c] else [c])
              (list_ascii_of_string text)).

Definition csv_cell (text : string) : string :=
  if needs_quotes text
  then (String "034" (doubled text) ++ String "034" EmptyString)%string
  else text.

Definition csv_record (cells : list string) : string :=
  (String.concat "," (map csv_cell cells) ++ crlf)%string.

Definition csv_file (header : list string) (records : list (list string)) : string :=
  (csv_record header ++ text_of_lines (map csv_record records))%string.

(** A text without CR or LF. *)
Fixpoint break_free (text : string) : bool :=
  match text with
  | EmptyString => true
  | String c rest => negb (Ascii.eqb c "013" || Ascii.eqb c "010") && break_free rest
  end.

Definition begin_line (c : ascii) (lines : list string) : list string :=
  match lines with
  | [] => [String c EmptyString]
  | line :: more => String c line :: more
  end.

(** The lines of a text as a reader sees them: a line ends at LF, at
    CR LF or at a CR alone. *)
Fixpoint file_lines (text : string) : list string :=
  match text with
  | EmptyString => []
  | String c rest =>
      if Ascii.eqb c "010" then EmptyString :: file_lines rest
      else if Ascii.eqb c "013" then
        match rest with
        | String d _ =>
            if Ascii.eqb d "010" then file_lines rest else EmptyString :: file_lines rest
        | EmptyString => [EmptyString]
        end
      else begin_line c (file_lines rest)
  end.

(** Every one of the records can be written to the file. *)
Definition writes_all (write_error : string -> option string -> string -> option exn)
  (path : string) (encoding : option string) (records : list (list string)) : Prop :=
  forall cells : list string,
    In cells records -> write_error path encoding (csv_record cells) = None.

(** The cells of a network row. *)
Definition network_cells (py_str : value -> string) (n : network_row) : list string :=
  [field_text py_str (practitionerRole n); field_text py_str (network n)].

(** The entries of the page that a GET at [url] gives, when the answer has
    status 200 and an object as body: what a loop over its [entry] goes
    through; nothing otherwise. *)
Definition entries_at
  (requests_get : value -> list (string * string) -> result response)
  (hdrs : list (string * string)) (url : value) : list value :=
  match requests_get url hdrs with
  | Ok resp =>
      if (status_code resp =? 200)%Z then
        match json resp with
        | Ok (VDict d) =>
            match lookup "entry" d with
            | Some v => match py_iter v with
                        | Ok items => items
                        | Raise _ => []
                        end
            | None => []
            end
        | _ => []
        end
      else []
  | Raise _ => []
  end.

(** ** Files that open, writes that go through, and some that do not *)

Definition always_opens (path : string) (encoding : option string) : option exn := None.

Definition always_writes (path : string) (encoding : option string) (text : string)
  : option exn := None.

(** A file system where nothing can be opened. *)
Definition never_opens (path : string) (encoding : option string) : option exn :=
  Some (LibraryError "PermissionError" "Permission denied").

(** A machine whose locale encoding is ASCII: a file opened without
    [encoding] takes the characters below 128 only, a file opened with an
    encoding of its own, as UTF-8, takes them all. *)
Definition ascii_locale (path : string) (encoding : option string) (text : string)
  : option exn :=
  match encoding with
  | Some _ => None
  | None =>
      if forallb (fun c => Nat.ltb (nat_of_ascii c) 128) (list_ascii_of_string text)
      then None
      else Some (LibraryError "UnicodeEncodeError" "ordinal not in range(128)")
  end.

(** An organization whose name is in two lines. *)
Definition two_line_name : value :=
  VDict [("resource",
          VDict [("id", VStr "1");
                 ("name", VStr (String "A" (String "010" (String "B" EmptyString))))])].

Definition two_line_page : page :=
  mkPage "https://example.org/two-lines" (VDict [("entry", VList [two_line_name])]).

(** A practitioner role whose network has a name that begins with the
    character of code 201. *)
Definition accented_role : value :=
  VDict [("resource",
          VDict [("id", VStr "role-2");
                 ("extension",
                  VList [network_extension [("display", VStr (String "201" "lite"))]])])].

Definition accented_roles : page :=
  mkPage api_url_2 (VDict [("entry", VList [role; accented_role; role])]).

Definition accented_server := serve [two_line_page; accented_roles].

(** * Proofs *)

(** ** Flattening an organization entry *)

Lemma bind_ok {A B : Type} (a : A) (k : A -> result B) : bind (Ok a) k = k a.
Proof. reflexivity. Qed.

Lemma bind_raise {A B : Type} (e : exn) (k : A -> result B) : bind (Raise e) k = Raise e.
Proof. reflexivity. Qed.

Lemma py_get_dict (d : list (string * value)) (key : string) (default : value) :
  py_get (VDict d) key default = Ok (field d key default).
Proof. unfold py_get, field. destruct (lookup key d); reflexivity. Qed.

Lemma mapM_identifier_values (items : list value) :
  forallb is_identifier items = true ->
  mapM (fun identifier => py_get identifier "value" (VStr "")) items
  = Ok (map (fun i => VStr (identifier_value i)) items).
Proof.
  induction items as [|i items IH]; simpl; intros H; [reflexivity|].
  apply andb_prop in H. destruct H as [Hi Hrest].
  rewrite (IH Hrest). clear IH Hrest.
  destruct i as [ | | | | |l|d]; try discriminate Hi.
  simpl in *. destruct (lookup "value" d) as [v|]; [|reflexivity].
  destruct v; try discriminate Hi. reflexivity.
Qed.

Lemma py_join_strings (sep : string) (l : list string) :
  py_join sep (map VStr l) = Ok (String.concat sep l).
Proof.
  induction l as [|s l IH]; [reflexivity|].
  destruct l as [|t l]; [reflexivity|].
  change (py_join sep (map VStr (s :: t :: l)))
    with (bind (py_join sep (map VStr (t :: l))) (fun u => Ok (s ++ sep ++ u)%string)).
  rewrite IH. reflexivity.
Qed.

(** C2.  An organization entry of the expected shape, whichever of its
    fields are absent, flattens without an error to the record made of its
    [id] and [name] (the empty string when absent) and of the [value]s of
    its identifiers joined by a comma and a space (the empty string when
    there is none).  Two identifiers A and B give the text A, B. *)
Theorem org_row_flattens (entry : value) :
  is_organization_entry entry = true ->
  org_row entry = Ok (organization_record entry)
  /\ org_row (VDict []) = Ok [VStr ""; VStr ""; VStr ""]
  /\ forall a b : string,
       org_row (VDict [("resource",
                        VDict [("identifier",
                                VList [VDict [("value", VStr a)];
                                       VDict [("value", VStr b)]])])])
       = Ok [VStr ""; VStr ""; VStr (a ++ ", " ++ b)].
Proof.
  intros H. split; [|split; [reflexivity|intros a b; reflexivity]].
  destruct entry as [ | | | | |l|d]; try discriminate H.
  unfold org_row, organization_record, resource_of. simpl in H.
  rewrite py_get_dict, bind_ok. unfold field.
  destruct (lookup "resource" d) as [r|]; [|reflexivity].
  destruct r as [ | | | | |l|r]; try discriminate H.
  rewrite !py_get_dict, !bind_ok.
  unfold optional_list in H. unfold list_field, field.
  destruct (lookup "identifier" r) as [ids|].
  - destruct ids as [ | | | | |ids|x]; try discriminate H.
    simpl py_iter. rewrite bind_ok.
    rewrite (mapM_identifier_values _ H), bind_ok.
    rewrite <- map_map, py_join_strings. reflexivity.
  - reflexivity.
Qed.

(** ** Extracting the networks *)

Lemma extract_extensions_app (role : value) (pre post : list value) :
  extract_extensions role (pre ++ post)
  = (before <- extract_extensions role pre ;;
     after <- extract_extensions role post ;;
     Ok (before ++ after)).
Proof.
  induction pre as [|ext pre IH]; simpl.
  - destruct (extract_extensions role post); reflexivity.
  - destruct (py_getitem ext "url") as [url|e]; simpl; [|reflexivity].
    destruct (py_eq_str url network_reference).
    + destruct (py_get ext "valueReference" (VDict [])) as [vr|e]; simpl; [|reflexivity].
      destruct (py_getitem role "id") as [role_id|e]; simpl; [|reflexivity].
      destruct (py_get vr "reference" (VStr "Unknown")) as [fallback|e]; simpl; [|reflexivity].
      destruct (py_get vr "display" fallback) as [name|e]; simpl; [|reflexivity].
      rewrite IH.
      destruct (extract_extensions role pre); simpl; [|reflexivity].
      destruct (extract_extensions role post); reflexivity.
    + exact IH.
Qed.

Lemma extract_networks_app (before after : list value) :
  extract_networks (before ++ after)
  = (rows <- extract_networks before ;;
     more <- extract_networks after ;;
     Ok (rows ++ more)).
Proof.
  induction before as [|entry before IH]; simpl.
  - destruct (extract_networks after); reflexivity.
  - destruct (extract_entry entry) as [rows|e]; simpl; [|reflexivity].
    rewrite IH.
    destruct (extract_networks before); simpl; [|reflexivity].
    destruct (extract_networks after); simpl; [|reflexivity].
    rewrite app_assoc. reflexivity.
Qed.

Lemma extract_networks_single (entry : value) :
  extract_networks [entry] = extract_entry entry.
Proof.
  simpl. destruct (extract_entry entry); simpl; [|reflexivity].
  rewrite app_nil_r. reflexivity.
Qed.

(** The pair appended for a network-reference extension. *)
Lemma extract_extensions_match (r d : list (string * value)) (role_id : value)
  (rest : list value) :
  lookup "id" r = Some role_id ->
  is_extension (VDict d) = true ->
  is_network_extension (VDict d) = true ->
  extract_extensions (VDict r) (VDict d :: rest)
  = (more <- extract_extensions (VDict r) rest ;;
     Ok (mkNetwork role_id (network_name (VDict d)) :: more)).
Proof.
  intros Hid Hext Hnet. simpl in *.
  destruct (lookup "url" d) as [url|]; [|discriminate Hnet].
  simpl. unfold network_reference. rewrite Hnet, Hid.
  destruct (lookup "valueReference" d) as [vr|]; simpl.
  - destruct vr as [ | | | | |l|vr]; try discriminate Hext. simpl.
    destruct (lookup "reference" vr), (lookup "display" vr); reflexivity.
  - reflexivity.
Qed.

Lemma extract_extensions_skip (role : value) (d : list (string * value))
  (rest : list value) :
  is_extension (VDict d) = true ->
  is_network_extension (VDict d) = false ->
  extract_extensions role (VDict d :: rest) = extract_extensions role rest.
Proof.
  intros Hext Hnet. simpl in *.
  destruct (lookup "url" d) as [url|]; [|discriminate Hext].
  simpl. unfold network_reference. rewrite Hnet. reflexivity.
Qed.

Lemma extract_extensions_pairs (r : list (string * value)) (exts : list value) :
  forallb is_extension exts = true ->
  match lookup "id" r with
  | Some _ => true
  | None => negb (existsb is_network_extension exts)
  end = true ->
  extract_extensions (VDict r) exts
  = Ok (map (fun ext => mkNetwork (field r "id" VNone) (network_name ext))
            (filter is_network_extension exts)).
Proof.
  induction exts as [|ext exts IH]; intros Hexts Hid; [reflexivity|].
  simpl in Hexts. apply andb_prop in Hexts. destruct Hexts as [Hext Hexts].
  destruct ext as [ | | | | |l|d]; try discriminate Hext.
  cbn [filter]. destruct (is_network_extension (VDict d)) eqn:Hnet.
  - destruct (lookup "id" r) as [role_id|] eqn:Er.
    + rewrite (extract_extensions_match r d role_id exts Er Hext Hnet), (IH Hexts eq_refl).
      unfold field. rewrite Er. reflexivity.
    + cbn [existsb] in Hid. rewrite Hnet in Hid. discriminate Hid.
  - rewrite (extract_extensions_skip (VDict r) d exts Hext Hnet). apply (IH Hexts).
    destruct (lookup "id" r); [reflexivity|].
    cbn [existsb] in Hid. rewrite Hnet in Hid. exact Hid.
Qed.

Lemma extract_entry_pairs (entry : value) :
  is_role_entry entry = true -> extract_entry entry = Ok (network_pairs entry).
Proof.
  intros H. destruct entry as [ | | | | |l|d]; try discriminate H.
  unfold extract_entry, network_pairs, resource_of. simpl in *.
  destruct (lookup "resource" d) as [r|]; [|discriminate H].
  destruct r as [ | | | | |l|r]; try discriminate H.
  apply andb_prop in H. destruct H as [Hexts Hid].
  rewrite bind_ok, py_get_dict, bind_ok.
  unfold optional_list in Hexts. unfold list_field in *. unfold field at 1.
  destruct (lookup "extension" r) as [exts|].
  - destruct exts as [ | | | | |exts|x]; try discriminate Hexts.
    simpl py_iter. rewrite bind_ok.
    apply extract_extensions_pairs; assumption.
  - reflexivity.
Qed.

(** C3.  A practitioner-role entry of the expected shape contributes to the
    output of [extract_networks], wherever it stands in the input, exactly
    one pair per extension whose [url] equals the network-reference
    constant, in the order of the extensions; with no such extension it
    contributes nothing.  An extension counts when its [url] is the
    string of the last line, and only then. *)
Theorem extract_networks_one_pair_per_extension
  (before after : list value) (entry : value) (rows more : list network_row) :
  is_role_entry entry = true ->
  extract_networks before = Ok rows ->
  extract_networks after = Ok more ->
  extract_networks (before ++ entry :: after) = Ok (rows ++ network_pairs entry ++ more)
  /\ List.length (network_pairs entry)
     = List.length (filter is_network_extension (list_field (resource_of entry) "extension"))
  /\ (existsb is_network_extension (list_field (resource_of entry) "extension") = false ->
      extract_networks (before ++ entry :: after) = Ok (rows ++ more))
  /\ (forall d : list (string * value),
        is_network_extension (VDict d) = true
        <-> lookup "url" d
            = Some (VStr "http://hl7.org/fhir/us/davinci-pdex-plan-net/StructureDefinition/network-reference")).
Proof.
  intros Hentry Hbefore Hafter.
  assert (Hall : extract_networks (before ++ entry :: after)
                 = Ok (rows ++ network_pairs entry ++ more)).
  { rewrite extract_networks_app, Hbefore, bind_ok.
    simpl. rewrite (extract_entry_pairs _ Hentry), Hafter. reflexivity. }
  split; [exact Hall|]. split; [|split].
  - unfold network_pairs. apply length_map.
  - intros Hnone. rewrite Hall. unfold network_pairs.
    assert (Hfilter : filter is_network_extension
                        (list_field (resource_of entry) "extension") = []).
    { induction (list_field (resource_of entry) "extension") as [|x l IH];
        [reflexivity|].
      simpl in *. apply orb_false_elim in Hnone. destruct Hnone as [Hx Hl].
      rewrite Hx. exact (IH Hl). }
    rewrite Hfilter. reflexivity.
  - intros d. unfold is_network_extension.
    destruct (lookup "url" d) as [url|]; [|split; discriminate].
    destruct url as [ | | | |s| | ]; try (split; discriminate).
    unfold py_eq_str. split.
    + intros Hs. apply String.eqb_eq in Hs. rewrite Hs. reflexivity.
    + intros Hs. injection Hs as ->. apply String.eqb_refl.
Qed.

Lemma extract_entry_extensions (e r : list (string * value)) (exts : list value) :
  lookup "resource" e = Some (VDict r) ->
  lookup "extension" r = Some (VList exts) ->
  extract_networks [VDict e] = extract_extensions (VDict r) exts.
Proof.
  intros He Hr. rewrite extract_networks_single.
  unfold extract_entry. simpl. rewrite He. simpl. rewrite Hr. reflexivity.
Qed.

(** C4.  For a network-reference extension of a practitioner role, the
    pair emitted by [extract_networks] carries the role's [id] and, as
    network name, the [display] of the extension's [valueReference] when
    present, otherwise its [reference] when present, otherwise the word
    Unknown; a [valueReference] with neither field gives Unknown. *)
Theorem network_name_preference
  (e r d : list (string * value)) (role_id : value) (pre post : list value) :
  lookup "resource" e = Some (VDict r) ->
  lookup "extension" r = Some (VList (pre ++ VDict d :: post)) ->
  lookup "id" r = Some role_id ->
  is_extension (VDict d) = true ->
  is_network_extension (VDict d) = true ->
  extract_networks [VDict e]
  = (before <- extract_extensions (VDict r) pre ;;
     after <- extract_extensions (VDict r) post ;;
     Ok (before ++ mkNetwork role_id (network_name (VDict d)) :: after))
  /\ (forall vr v, lookup "valueReference" d = Some (VDict vr) ->
        lookup "display" vr = Some v -> network_name (VDict d) = v)
  /\ (forall vr v, lookup "valueReference" d = Some (VDict vr) ->
        lookup "display" vr = None -> lookup "reference" vr = Some v ->
        network_name (VDict d) = v)
  /\ (forall vr, lookup "valueReference" d = Some (VDict vr) ->
        lookup "display" vr = None -> lookup "reference" vr = None ->
        network_name (VDict d) = VStr "Unknown")
  /\ (lookup "valueReference" d = None -> network_name (VDict d) = VStr "Unknown").
Proof.
  intros He Hr Hid Hext Hnet. split.
  - rewrite (extract_entry_extensions e r _ He Hr), extract_extensions_app.
    rewrite (extract_extensions_match r d role_id post Hid Hext Hnet).
    destruct (extract_extensions (VDict r) pre); simpl; [|reflexivity].
    destruct (extract_extensions (VDict r) post); reflexivity.
  - unfold network_name. repeat split.
    + intros vr v Hvr Hdisplay. rewrite Hvr, Hdisplay. reflexivity.
    + intros vr v Hvr Hdisplay Href. rewrite Hvr, Hdisplay, Href. reflexivity.
    + intros vr Hvr Hdisplay Href. rewrite Hvr, Hdisplay, Href. reflexivity.
    + intros Hvr. rewrite Hvr. reflexivity.
Qed.

(** C5.  An entry without the [resource] key makes [extract_networks]
    raise: the exception of an earlier entry if one raises, otherwise the
    [KeyError] of the unguarded [entry['resource']]; nothing inside the
    function catches it.  The organization flattener, given the same
    entry, returns a row of defaults. *)
Theorem missing_resource_raises (before after : list value) (d : list (string * value)) :
  lookup "resource" d = None ->
  extract_networks (before ++ VDict d :: after)
  = match extract_networks before with
    | Ok _ => Raise (KeyError "resource")
    | Raise e => Raise e
    end
  /\ (exists e, extract_networks (before ++ VDict d :: after) = Raise e)
  /\ org_row (VDict d) = Ok [VStr ""; VStr ""; VStr ""].
Proof.
  intros Hd.
  assert (Hraise : extract_networks (before ++ VDict d :: after)
                   = match extract_networks before with
                     | Ok _ => Raise (KeyError "resource")
                     | Raise e => Raise e
                     end).
  { rewrite extract_networks_app.
    destruct (extract_networks before); simpl; [|reflexivity].
    unfold extract_entry. simpl. rewrite Hd. reflexivity. }
  split; [exact Hraise|]. split.
  - rewrite Hraise. destruct (extract_networks before) as [rows|e].
    + exists (KeyError "resource"). reflexivity.
    + exists e. reflexivity.
  - unfold org_row. simpl. rewrite Hd. reflexivity.
Qed.

(** C10.  The accesses [ext['url']] and [practitioner_role['id']] are
    unguarded as well.  When an extension object has no [url], or when it
    is a network reference and the resource has no [id], [extract_networks]
    raises: the exception of an earlier entry or extension if one raises,
    otherwise the [KeyError] of the missing key.  The extension is neither
    skipped nor given a default. *)
Theorem missing_url_or_id_raises
  (before after pre post : list value) (e r d : list (string * value)) (key : string) :
  lookup "resource" e = Some (VDict r) ->
  lookup "extension" r = Some (VList (pre ++ VDict d :: post)) ->
  (lookup "url" d = None /\ key = "url")
  \/ (is_network_extension (VDict d) = true /\ lookup "id" r = None /\ key = "id") ->
  extract_networks (before ++ VDict e :: after)
  = match extract_networks before with
    | Raise x => Raise x
    | Ok _ => match extract_extensions (VDict r) pre with
              | Raise x => Raise x
              | Ok _ => Raise (KeyError key)
              end
    end.
Proof.
  intros He Hr Hkey. rewrite extract_networks_app.
  destruct (extract_networks before) as [rows|x]; simpl; [|reflexivity].
  unfold extract_entry. simpl. rewrite He. simpl. rewrite Hr. simpl.
  rewrite extract_extensions_app.
  destruct (extract_extensions (VDict r) pre) as [found|x]; simpl; [|reflexivity].
  destruct Hkey as [[Hurl ->]|[Hnet [Hid ->]]].
  - rewrite Hurl. reflexivity.
  - simpl in Hnet. destruct (lookup "url" d) as [url|]; [|discriminate Hnet].
    simpl. unfold network_reference. rewrite Hnet, Hid.
    destruct (lookup "valueReference" d); reflexivity.
Qed.

(** ** The two paginators on well-formed pages *)

Lemma org_next_link_links (links : list value) :
  forallb is_link links = true ->
  org_next_link links
  = Ok (match find is_next links with Some link => link_url link | None => VNone end).
Proof.
  induction links as [|link links IH]; intros H; [reflexivity|].
  simpl in H. apply andb_prop in H. destruct H as [Hlink Hlinks].
  destruct link as [ | | | | |l|d]; try discriminate Hlink.
  simpl in *. destruct (lookup "relation" d) as [relation|]; [|discriminate Hlink].
  simpl. destruct (py_eq_str relation "next").
  - unfold link_url, field. destruct (lookup "url" d); reflexivity.
  - exact (IH Hlinks).
Qed.

Lemma net_next_link_links (links : list value) :
  forallb is_link links = true ->
  net_next_link links
  = Ok (match find is_next links with Some link => link_url link | None => VNone end).
Proof.
  induction links as [|link links IH]; intros H; [reflexivity|].
  simpl in H. apply andb_prop in H. destruct H as [Hlink Hlinks].
  destruct link as [ | | | | |l|d]; try discriminate Hlink.
  simpl in *. destruct (lookup "relation" d) as [relation|]; [|discriminate Hlink].
  simpl. destruct (py_eq_str relation "next").
  - unfold link_url, field. destruct (lookup "url" d); [reflexivity|discriminate Hlink].
  - exact (IH Hlinks).
Qed.

Lemma org_page_bundle (all_entries : list value) (data : value) :
  is_bundle data = true ->
  org_page all_entries data = Ok (all_entries ++ entries_of data, next_of data).
Proof.
  intros H. destruct data as [ | | | | |l|d]; try discriminate H.
  simpl in H. apply andb_prop in H. destruct H as [Hentry Hlink].
  unfold org_page, next_of, next_link, entries_of, links_of, list_field, optional_list in *.
  rewrite !py_get_dict. unfold field. simpl.
  destruct (lookup "entry" d) as [entry|].
  - destruct entry as [ | | | | |entry|x]; try discriminate Hentry. simpl.
    destruct (lookup "link" d) as [link|]; [|reflexivity].
    destruct link as [ | | | | |link|x]; try discriminate Hlink. simpl.
    rewrite (org_next_link_links link Hlink). reflexivity.
  - simpl. destruct (lookup "link" d) as [link|]; [|reflexivity].
    destruct link as [ | | | | |link|x]; try discriminate Hlink. simpl.
    rewrite (org_next_link_links link Hlink). reflexivity.
Qed.

Lemma net_page_bundle (all_data : list value) (data : value) :
  is_bundle data = true ->
  net_page all_data data = Ok (all_data ++ entries_of data, next_of data).
Proof.
  intros H. destruct data as [ | | | | |l|d]; try discriminate H.
  simpl in H. apply andb_prop in H. destruct H as [Hentry Hlink].
  unfold net_page, next_of, next_link, entries_of, links_of, list_field, optional_list in *.
  rewrite !py_get_dict. unfold field. simpl.
  destruct (lookup "entry" d) as [entry|].
  - destruct entry as [ | | | | |entry|x]; try discriminate Hentry. simpl.
    destruct (lookup "link" d) as [link|]; [|reflexivity].
    destruct link as [ | | | | |link|x]; try discriminate Hlink. simpl.
    rewrite (net_next_link_links link Hlink). reflexivity.
  - simpl. rewrite app_nil_r.
    destruct (lookup "link" d) as [link|]; [|reflexivity].
    destruct link as [ | | | | |link|x]; try discriminate Hlink. simpl.
    rewrite (net_next_link_links link Hlink). reflexivity.
Qed.

Lemma visit_cons (hdrs : list (string * string)) (u : string) (urls : list string)
  (w : world) :
  visit hdrs urls (log_request (VStr u) hdrs w) = visit hdrs (u :: urls) w.
Proof.
  unfold visit, log_request. simpl. rewrite <- app_assoc. reflexivity.
Qed.

Lemma truthy_url (u : string) : u <> "" -> py_truthy (VStr u) = true.
Proof.
  intros H. simpl. destruct (String.eqb_spec u ""); [contradiction|reflexivity].
Qed.

Section Loops.

Variable requests_get : value -> list (string * string) -> result response.

(** One turn of either loop on a page that is served. *)
Lemma org_fetch_step (fuel : nat) (p : page) (all_entries : list value) (w : world) :
  served requests_get headers p ->
  org_fetch requests_get (S fuel) (VStr (page_url p)) all_entries w
  = org_fetch requests_get fuel (next_of (page_data p))
      (all_entries ++ entries_of (page_data p))
      (log_request (VStr (page_url p)) headers w).
Proof.
  intros [Hurl [Hget Hbundle]].
  cbn [org_fetch]. rewrite (truthy_url _ Hurl), Hget.
  cbn [status_code json]. rewrite Z.eqb_refl, bind_ok.
  rewrite (org_page_bundle all_entries _ Hbundle). reflexivity.
Qed.

Lemma fetch_all_data_step (fuel : nat) (p : page) (all_data : list value) (w : world) :
  served requests_get [] p ->
  fetch_all_data_from requests_get (S fuel) (VStr (page_url p)) all_data w
  = fetch_all_data_from requests_get fuel (next_of (page_data p))
      (all_data ++ entries_of (page_data p))
      (log_request (VStr (page_url p)) [] w).
Proof.
  intros [Hurl [Hget Hbundle]].
  cbn [fetch_all_data_from]. rewrite (truthy_url _ Hurl), Hget.
  cbn [status_code json]. rewrite Z.eqb_refl, bind_ok.
  rewrite (net_page_bundle all_data _ Hbundle). reflexivity.
Qed.

(** One turn of either loop on a URL that answers with another status. *)
Lemma org_fetch_failure (fuel : nat) (u : string) (r : response)
  (all_entries : list value) (w : world) :
  u <> "" ->
  requests_get (VStr u) headers = Ok r ->
  status_code r <> 200%Z ->
  org_fetch requests_get (S fuel) (VStr u) all_entries w
  = Some (print (Line ("Failed to retrieve data: " ++ format_int (status_code r)))
                (log_request (VStr u) headers w),
          Ok all_entries).
Proof.
  intros Hurl Hget Hcode.
  cbn [org_fetch]. rewrite (truthy_url _ Hurl), Hget.
  destruct (Z.eqb_spec (status_code r) 200); [contradiction|reflexivity].
Qed.

Lemma fetch_all_data_failure (fuel : nat) (u : string) (r : response)
  (all_data : list value) (w : world) :
  u <> "" ->
  requests_get (VStr u) [] = Ok r ->
  status_code r <> 200%Z ->
  fetch_all_data_from requests_get (S fuel) (VStr u) all_data w
  = Some (log_request (VStr u) [] w,
          Raise (Exception ("Failed to fetch data. Status code: "
                            ++ format_int (status_code r)))).
Proof.
  intros Hurl Hget Hcode.
  cbn [fetch_all_data_from]. rewrite (truthy_url _ Hurl), Hget.
  destruct (Z.eqb_spec (status_code r) 200); [contradiction|reflexivity].
Qed.

Lemma org_fetch_stop (fuel : nat) (all_entries : list value) (w : world) :
  org_fetch requests_get fuel VNone all_entries w = Some (w, Ok all_entries).
Proof. destruct fuel; reflexivity. Qed.

Lemma fetch_all_data_stop (fuel : nat) (all_data : list value) (w : world) :
  fetch_all_data_from requests_get fuel VNone all_data w = Some (w, Ok all_data).
Proof. destruct fuel; reflexivity. Qed.

Lemma org_fetch_chain (pages : list page) :
  chain requests_get headers pages ->
  forall (fuel : nat) (all_entries : list value) (w : world),
    List.length pages <= fuel ->
    org_fetch requests_get fuel (first_url pages) all_entries w
    = Some (visit headers (map page_url pages) w,
            Ok (all_entries ++ all_entries_of pages)).
Proof.
  induction 1 as [p Hp Hnext|p q rest link Hp Hnext Hurl Hrest IH];
    intros fuel all_entries w Hfuel;
    (destruct fuel as [|fuel]; [simpl in Hfuel; lia|]);
    cbn [first_url]; rewrite (org_fetch_step _ _ _ _ Hp); unfold next_of; rewrite Hnext.
  - rewrite org_fetch_stop. unfold all_entries_of. simpl. rewrite app_nil_r.
    reflexivity.
  - rewrite Hurl. change (VStr (page_url q)) with (first_url (q :: rest)).
    rewrite IH by (simpl in *; lia).
    change (map page_url (p :: q :: rest))
      with (page_url p :: map page_url (q :: rest)).
    rewrite visit_cons, <- app_assoc. reflexivity.
Qed.

Lemma fetch_all_data_chain (pages : list page) :
  chain requests_get [] pages ->
  forall (fuel : nat) (all_data : list value) (w : world),
    List.length pages <= fuel ->
    fetch_all_data_from requests_get fuel (first_url pages) all_data w
    = Some (visit [] (map page_url pages) w,
            Ok (all_data ++ all_entries_of pages)).
Proof.
  induction 1 as [p Hp Hnext|p q rest link Hp Hnext Hurl Hrest IH];
    intros fuel all_data w Hfuel;
    (destruct fuel as [|fuel]; [simpl in Hfuel; lia|]);
    cbn [first_url]; rewrite (fetch_all_data_step _ _ _ _ Hp); unfold next_of;
    rewrite Hnext.
  - rewrite fetch_all_data_stop. unfold all_entries_of. simpl. rewrite app_nil_r.
    reflexivity.
  - rewrite Hurl. change (VStr (page_url q)) with (first_url (q :: rest)).
    rewrite IH by (simpl in *; lia).
    change (map page_url (p :: q :: rest))
      with (page_url p :: map page_url (q :: rest)).
    rewrite visit_cons, <- app_assoc. reflexivity.
Qed.

(** C1.  On a chain of N pages, each of the first N-1 with a next link to
    the following page and the last with none, the loop of
    [export_org_id_to_csv] and [fetch_all_data] both return, given fuel for
    N turns, after exactly N GET requests (to the pages' URLs, in order),
    with the entries of all the pages, in page order then in-page order. *)
Theorem pagination_follows_chain
  (hdrs : list (string * string)) (pages : list page) (fuel : nat) (w : world) :
  chain requests_get hdrs pages ->
  List.length pages <= fuel ->
  (hdrs = headers ->
   org_fetch requests_get fuel (first_url pages) [] w
   = Some (visit hdrs (map page_url pages) w, Ok (all_entries_of pages)))
  /\ (hdrs = [] ->
      fetch_all_data requests_get fuel (first_url pages) w
      = Some (visit hdrs (map page_url pages) w, Ok (all_entries_of pages)))
  /\ List.length (requests (visit hdrs (map page_url pages) w))
     = List.length (requests w) + List.length pages.
Proof.
  intros Hchain Hfuel. repeat split.
  - intros ->. exact (org_fetch_chain pages Hchain fuel [] w Hfuel).
  - intros ->. exact (fetch_all_data_chain pages Hchain fuel [] w Hfuel).
  - unfold visit. simpl. rewrite length_app, !length_map. reflexivity.
Qed.

End Loops.

(** ** The text of the files *)

Lemma string_app_assoc (a b c : string) : ((a ++ b) ++ c = a ++ (b ++ c))%string.
Proof. induction a as [|x a IH]; simpl; [reflexivity|]. rewrite IH. reflexivity. Qed.

Lemma string_app_nil_r (a : string) : (a ++ "" = a)%string.
Proof. induction a as [|x a IH]; simpl; [reflexivity|]. rewrite IH. reflexivity. Qed.

(** The writer against the delimited text of the specification. *)
Lemma has_special_needs_quotes (s : string) : has_special s = needs_quotes s.
Proof.
  induction s as [|c s IH]; [reflexivity|].
  unfold needs_quotes in *. simpl. rewrite IH. unfold special.
  rewrite orb_false_r, !orb_assoc. reflexivity.
Qed.

Lemma double_quotes_doubled (s : string) : double_quotes s = doubled s.
Proof.
  induction s as [|c s IH]; [reflexivity|].
  unfold doubled in *. simpl. change quotechar with "034"%char.
  destruct (Ascii.eqb c "034"); simpl; rewrite IH; reflexivity.
Qed.

Lemma csv_field_cell (s : string) : csv_field s = csv_cell s.
Proof.
  unfold csv_field, csv_cell.
  rewrite has_special_needs_quotes, double_quotes_doubled. reflexivity.
Qed.

Lemma csv_line_record (texts : list string) : csv_line texts = csv_record texts.
Proof.
  unfold csv_line, csv_record. rewrite (map_ext _ _ csv_field_cell). reflexivity.
Qed.

Section Files.

Variable requests_get : value -> list (string * string) -> result response.
Variable py_str : value -> string.
Variable open_error : string -> option string -> option exn.
Variable write_error : string -> option string -> string -> option exn.

Lemma writerow_org_header :
  writerow py_str org_header = csv_record ["id"; "name"; "identifiers"].
Proof. reflexivity. Qed.

Lemma writerow_fieldnames :
  writerow py_str (map VStr fieldnames) = csv_record ["practitionerRole"; "network"].
Proof. reflexivity. Qed.

(** A row of two fields or more is the line of its fields. *)
Lemma writerow_csv_line (a b : value) (rest : list value) :
  writerow py_str (a :: b :: rest) = csv_line (map (field_text py_str) (a :: b :: rest)).
Proof.
  unfold writerow, csv_line. simpl map.
  destruct (field_text py_str a); reflexivity.
Qed.

Lemma writerow_record (a b : value) (rest : list value) :
  writerow py_str (a :: b :: rest) = csv_record (map (field_text py_str) (a :: b :: rest)).
Proof. rewrite writerow_csv_line. apply csv_line_record. Qed.

Lemma org_row_three_fields (entry : value) (row : list value) :
  org_row entry = Ok row -> exists a b c, row = [a; b; c].
Proof.
  unfold org_row. intros H.
  destruct (py_get entry "resource" (VDict [])) as [organization|]; [|discriminate H].
  simpl in H.
  destruct (py_get organization "id" (VStr "")) as [org_id|]; [|discriminate H].
  destruct (py_get organization "name" (VStr "")) as [org_name|]; [|discriminate H].
  destruct (py_get organization "identifier" (VList [])) as [ids|]; [|discriminate H].
  simpl in H. destruct (py_iter ids) as [items|]; [|discriminate H].
  simpl in H.
  destruct (mapM (fun identifier => py_get identifier "value" (VStr "")) items)
    as [vals|]; [|discriminate H].
  simpl in H. destruct (py_join ", " vals) as [s|]; [|discriminate H].
  simpl in H. injection H as <-. eauto.
Qed.

Lemma org_rows_records (all_entries : list value) :
  forall rows : list (list value),
    mapM org_row all_entries = Ok rows ->
    map (writerow py_str) rows = map csv_record (map (map (field_text py_str)) rows)
    /\ Forall (fun row => List.length row = 3) rows.
Proof.
  induction all_entries as [|entry rest IH]; intros rows H; simpl in H.
  - injection H as <-. split; [reflexivity|constructor].
  - destruct (org_row entry) as [row|] eqn:Hrow; [|discriminate H]. simpl in H.
    destruct (mapM org_row rest) as [rows'|]; [|discriminate H]. simpl in H.
    injection H as <-. destruct (IH rows' eq_refl) as [Hlines Hlen].
    destruct (org_row_three_fields entry row Hrow) as [a [b [c ->]]].
    split.
    + simpl map. rewrite Hlines, writerow_record. reflexivity.
    + constructor; [reflexivity|exact Hlen].
Qed.

(** The rows that go through are appended to the text at hand. *)
Lemma org_write_rows_ok (filename : string) (all_entries : list value) :
  forall (rows : list (list value)) (text : string),
    mapM org_row all_entries = Ok rows ->
    (forall row : list value,
        In row rows -> write_error filename (Some "utf-8") (writerow py_str row) = None) ->
    org_write_rows py_str write_error filename all_entries text
    = ((text ++ text_of_lines (map (writerow py_str) rows))%string, Ok tt).
Proof.
  induction all_entries as [|entry rest IH]; intros rows text H Hwrite; simpl in *.
  - injection H as <-. simpl. rewrite string_app_nil_r. reflexivity.
  - destruct (org_row entry) as [row|]; [|discriminate H]. simpl in H.
    destruct (mapM org_row rest) as [rows'|]; [|discriminate H]. simpl in H.
    injection H as <-. rewrite (Hwrite row (or_introl eq_refl)).
    rewrite (IH rows' _ eq_refl) by (intros r Hr; apply Hwrite; right; exact Hr).
    simpl. rewrite string_app_assoc. reflexivity.
Qed.

(** The first entry that cannot be flattened, or whose row cannot be
    written, ends the loop with what was written before it. *)
Lemma org_write_rows_bad (filename : string) (good : list value) :
  forall (bad : value) (rest : list value) (rows : list (list value)) (e : exn)
         (text : string),
    mapM org_row good = Ok rows ->
    (forall row : list value,
        In row rows -> write_error filename (Some "utf-8") (writerow py_str row) = None) ->
    (org_row bad = Raise e
     \/ exists row : list value,
          org_row bad = Ok row
          /\ write_error filename (Some "utf-8") (writerow py_str row) = Some e) ->
    org_write_rows py_str write_error filename (good ++ bad :: rest) text
    = ((text ++ text_of_lines (map (writerow py_str) rows))%string, Raise e).
Proof.
  induction good as [|entry good IH]; intros bad rest rows e text Hrows Hwrite Hbad;
    simpl in *.
  - injection Hrows as <-. simpl. rewrite string_app_nil_r.
    destruct Hbad as [Hbad|[row [Hrow Hrefused]]].
    + rewrite Hbad. reflexivity.
    + rewrite Hrow, Hrefused. reflexivity.
  - destruct (org_row entry) as [row|]; [|discriminate Hrows]. simpl in Hrows.
    destruct (mapM org_row good) as [rows'|]; [|discriminate Hrows]. simpl in Hrows.
    injection Hrows as <-. rewrite (Hwrite row (or_introl eq_refl)).
    rewrite (IH bad rest rows' e _ eq_refl) by
      (try exact Hbad; intros r Hr; apply Hwrite; right; exact Hr).
    simpl. rewrite string_app_assoc. reflexivity.
Qed.

(** The hypothesis on the records, turned towards the rows of the writer. *)
Lemma writes_all_rows (filename : string) (all_entries : list value)
  (rows : list (list value)) :
  mapM org_row all_entries = Ok rows ->
  writes_all write_error filename (Some "utf-8")
    (["id"; "name"; "identifiers"] :: map (map (field_text py_str)) rows) ->
  write_error filename (Some "utf-8") (writerow py_str org_header) = None
  /\ forall row : list value,
       In row rows -> write_error filename (Some "utf-8") (writerow py_str row) = None.
Proof.
  intros Hrows Hall. split.
  - rewrite writerow_org_header. apply Hall. left. reflexivity.
  - intros row Hrow.
    destruct (org_rows_records all_entries rows Hrows) as [_ Hlen].
    rewrite Forall_forall in Hlen. specialize (Hlen row Hrow).
    destruct row as [|a [|b rest]]; try discriminate Hlen.
    rewrite writerow_record. apply Hall. right.
    apply in_map_iff. exists (a :: b :: rest). split; [reflexivity|exact Hrow].
Qed.

(** An exception of [extract_networks] is caught by the top-level block,
    which prints it and writes no file. *)
Lemma export_networks_extract_fault (fuel : nat) (w w1 : world) (data : list value)
  (e : exn) :
  fetch_all_data requests_get fuel (VStr api_url_2) w = Some (w1, Ok data) ->
  extract_networks data = Raise e ->
  export_networks requests_get py_str open_error write_error fuel w
  = Some (print (ExnLine e) w1).
Proof.
  intros Hdata Hfault. unfold export_networks. rewrite Hdata, Hfault. reflexivity.
Qed.

Lemma export_after_fetch (fuel : nat) (api_url_1 : value) (filename : string)
  (w w1 : world) (all_entries : list value) (rows : list (list value)) :
  org_fetch requests_get fuel api_url_1 [] w = Some (w1, Ok all_entries) ->
  mapM org_row all_entries = Ok rows ->
  open_error filename (Some "utf-8") = None ->
  writes_all write_error filename (Some "utf-8")
    (["id"; "name"; "identifiers"] :: map (map (field_text py_str)) rows) ->
  export_org_id_to_csv requests_get py_str open_error write_error fuel api_url_1
    filename w
  = Some (print (Line ("Data has been exported to " ++ filename))
            (write_file filename
               (csv_file ["id"; "name"; "identifiers"]
                  (map (map (field_text py_str)) rows)) w1),
          Ok tt).
Proof.
  intros Hfetch Hrows Hopen Hall.
  destruct (writes_all_rows filename all_entries rows Hrows Hall) as [Hheader Hwrite].
  destruct (org_rows_records all_entries rows Hrows) as [Hlines _].
  unfold export_org_id_to_csv, org_write.
  rewrite Hfetch, Hopen, Hheader.
  rewrite (org_write_rows_ok filename all_entries rows _ Hrows Hwrite).
  rewrite writerow_org_header, Hlines. reflexivity.
Qed.

Lemma networks_write_rows_ok (networks : list network_row) :
  forall text : string,
    (forall n : network_row,
        In n networks ->
        write_error "associated_networks.csv" None (writerow py_str (dict_to_list n))
        = None) ->
    networks_write_rows py_str write_error networks text
    = ((text ++ text_of_lines (map csv_record (map (network_cells py_str) networks)))%string,
       Ok tt).
Proof.
  induction networks as [|n networks IH]; intros text Hwrite; simpl.
  - rewrite string_app_nil_r. reflexivity.
  - rewrite (Hwrite n (or_introl eq_refl)).
    rewrite IH by (intros m Hm; apply Hwrite; right; exact Hm).
    unfold dict_to_list. rewrite writerow_record, string_app_assoc. reflexivity.
Qed.

Lemma export_networks_after_fetch (fuel : nat) (w w1 : world) (data : list value)
  (networks : list network_row) :
  fetch_all_data requests_get fuel (VStr api_url_2) w = Some (w1, Ok data) ->
  extract_networks data = Ok networks ->
  open_error "associated_networks.csv" None = None ->
  writes_all write_error "associated_networks.csv" None
    (["practitionerRole"; "network"] :: map (network_cells py_str) networks) ->
  export_networks requests_get py_str open_error write_error fuel w
  = Some (print (Line "Associated networks have been saved to 'associated_networks.csv'")
            (write_file "associated_networks.csv"
               (csv_file ["practitionerRole"; "network"]
                  (map (network_cells py_str) networks)) w1)).
Proof.
  intros Hdata Hnetworks Hopen Hall.
  unfold export_networks, networks_write.
  rewrite Hdata, Hnetworks, Hopen, writerow_fieldnames.
  rewrite (Hall _ (or_introl eq_refl)).
  rewrite networks_write_rows_ok; [reflexivity|].
  intros n Hn. unfold dict_to_list. rewrite writerow_record.
  apply Hall. right. exact (in_map (network_cells py_str) networks n Hn).
Qed.

(** ** A status other than 200 *)

Lemma org_fetch_broken (code : Z) (failing start : string) (pages : list page) :
  broken_chain requests_get headers code failing start pages ->
  forall (fuel : nat) (all_entries : list value) (w : world),
    S (List.length pages) <= fuel ->
    org_fetch requests_get fuel (VStr start) all_entries w
    = Some (print (Line ("Failed to retrieve data: " ++ format_int code))
                  (visit headers (map page_url pages ++ [failing]) w),
            Ok (all_entries ++ all_entries_of pages)).
Proof.
  induction 1 as [r Hurl Hget Hr Hcode|p rest link u Hp Hnext Hlink Hrest IH];
    intros fuel all_entries w Hfuel;
    (destruct fuel as [|fuel]; [lia|]).
  - rewrite (org_fetch_failure requests_get fuel failing r all_entries w Hurl Hget)
      by (rewrite Hr; exact Hcode).
    rewrite Hr. unfold all_entries_of. simpl. rewrite app_nil_r. reflexivity.
  - rewrite (org_fetch_step requests_get _ _ _ _ Hp). unfold next_of.
    rewrite Hnext, Hlink, IH by (simpl in *; lia).
    change (map page_url (p :: rest) ++ [failing])
      with (page_url p :: (map page_url rest ++ [failing])).
    rewrite visit_cons. unfold all_entries_of. simpl. rewrite <- app_assoc.
    reflexivity.
Qed.

Lemma fetch_all_data_broken (code : Z) (failing start : string) (pages : list page) :
  broken_chain requests_get [] code failing start pages ->
  forall (fuel : nat) (all_data : list value) (w : world),
    S (List.length pages) <= fuel ->
    fetch_all_data_from requests_get fuel (VStr start) all_data w
    = Some (visit [] (map page_url pages ++ [failing]) w,
            Raise (Exception ("Failed to fetch data. Status code: " ++ format_int code))).
Proof.
  induction 1 as [r Hurl Hget Hr Hcode|p rest link u Hp Hnext Hlink Hrest IH];
    intros fuel all_data w Hfuel;
    (destruct fuel as [|fuel]; [lia|]).
  - rewrite (fetch_all_data_failure requests_get fuel failing r all_data w Hurl Hget)
      by (rewrite Hr; exact Hcode).
    rewrite Hr. reflexivity.
  - rewrite (fetch_all_data_step requests_get _ _ _ _ Hp). unfold next_of.
    rewrite Hnext, Hlink, IH by (simpl in *; lia).
    change (map page_url (p :: rest) ++ [failing])
      with (page_url p :: (map page_url rest ++ [failing])).
    rewrite visit_cons. reflexivity.
Qed.

(** C7.  When the organization pipeline reaches, after any number of good
    pages, a URL that answers with a status other than 200, it prints the
    status code, stops paginating, and, the file opening and taking the
    rows, writes the entries accumulated so far as if they were complete:
    the file holds the header row and one row per entry, the closing
    message is printed and the function returns normally.  When the first
    page fails the file holds the header row and nothing else. *)
Theorem org_non_200_stops_and_writes
  (code : Z) (failing start : string) (pages : list page) (fuel : nat)
  (filename : string) (rows : list (list value)) (w : world) :
  broken_chain requests_get headers code failing start pages ->
  S (List.length pages) <= fuel ->
  mapM org_row (all_entries_of pages) = Ok rows ->
  open_error filename (Some "utf-8") = None ->
  writes_all write_error filename (Some "utf-8")
    (["id"; "name"; "identifiers"] :: map (map (field_text py_str)) rows) ->
  org_fetch requests_get fuel (VStr start) [] w
  = Some (print (Line ("Failed to retrieve data: " ++ format_int code))
            (visit headers (map page_url pages ++ [failing]) w),
          Ok (all_entries_of pages))
  /\ exists w' : world,
       export_org_id_to_csv requests_get py_str open_error write_error fuel
         (VStr start) filename w
       = Some (w', Ok tt)
       /\ requests w'
          = requests w
            ++ map (fun u => mkRequest (VStr u) headers) (map page_url pages ++ [failing])
       /\ stdout w'
          = stdout w
            ++ [Line ("Failed to retrieve data: " ++ format_int code);
                Line ("Data has been exported to " ++ filename)]
       /\ files w' filename
          = Some (csv_file ["id"; "name"; "identifiers"]
                    (map (map (field_text py_str)) rows))
       /\ (forall path : string, path <> filename -> files w' path = files w path)
       /\ (pages = [] -> files w' filename = Some ("id,name,identifiers" ++ crlf)%string).
Proof.
  intros Hchain Hfuel Hrows Hopen Hall.
  assert (Hfetch : org_fetch requests_get fuel (VStr start) [] w
                   = Some (print (Line ("Failed to retrieve data: " ++ format_int code))
                             (visit headers (map page_url pages ++ [failing]) w),
                           Ok (all_entries_of pages))).
  { exact (org_fetch_broken code failing start pages Hchain fuel [] w Hfuel). }
  split; [exact Hfetch|].
  eexists. split.
  { exact (export_after_fetch fuel (VStr start) filename w _ _ rows
             Hfetch Hrows Hopen Hall). }
  split; [reflexivity|]. split.
  { simpl. rewrite <- app_assoc. reflexivity. }
  split.
  { simpl. rewrite String.eqb_refl. reflexivity. }
  split.
  { intros path Hpath. simpl.
    destruct (String.eqb_spec path filename); [contradiction|reflexivity]. }
  intros Hnil. subst pages. simpl in Hrows. injection Hrows as <-.
  simpl. rewrite String.eqb_refl. reflexivity.
Qed.

(** C8.  When [fetch_all_data] reaches, after any number of good pages, a
    URL that answers with a status other than 200, it raises an exception
    whose message carries the status code.  The top-level block catches it
    and prints it; no file is opened or written and the closing message is
    not printed. *)
Theorem network_non_200_aborts
  (code : Z) (failing start : string) (pages : list page) (fuel : nat) (w : world) :
  broken_chain requests_get [] code failing start pages ->
  S (List.length pages) <= fuel ->
  let e := Exception ("Failed to fetch data. Status code: " ++ format_int code) in
  let w1 := visit [] (map page_url pages ++ [failing]) w in
  fetch_all_data requests_get fuel (VStr start) w = Some (w1, Raise e)
  /\ (start = api_url_2 ->
      export_networks requests_get py_str open_error write_error fuel w
      = Some (print (ExnLine e) w1))
  /\ files (print (ExnLine e) w1) = files w
  /\ stdout (print (ExnLine e) w1) = stdout w ++ [ExnLine e].
Proof.
  intros Hchain Hfuel e w1.
  assert (Hfetch : fetch_all_data requests_get fuel (VStr start) w = Some (w1, Raise e)).
  { exact (fetch_all_data_broken code failing start pages Hchain fuel [] w Hfuel). }
  split; [exact Hfetch|]. split; [|split; reflexivity].
  intros Hstart. unfold export_networks. rewrite <- Hstart, Hfetch. reflexivity.
Qed.

End Files.

(** ** Lines and line breaks *)

Lemma break_free_app (a b : string) :
  break_free (a ++ b) = break_free a && break_free b.
Proof.
  induction a as [|c a IH]; simpl; [reflexivity|].
  rewrite IH, andb_assoc. reflexivity.
Qed.

Lemma break_free_doubled (s : string) : break_free (doubled s) = break_free s.
Proof.
  rewrite <- double_quotes_doubled.
  induction s as [|c s IH]; simpl; [reflexivity|].
  destruct (Ascii.eqb_spec c quotechar) as [->|_]; simpl; rewrite IH; reflexivity.
Qed.

Lemma break_free_cell (s : string) : break_free (csv_cell s) = break_free s.
Proof.
  unfold csv_cell. destruct (needs_quotes s); [|reflexivity].
  simpl. rewrite break_free_app, break_free_doubled. simpl.
  rewrite andb_true_r. reflexivity.
Qed.

Lemma break_free_cells (cells : list string) :
  forallb break_free cells = true ->
  break_free (String.concat "," (map csv_cell cells)) = true.
Proof.
  induction cells as [|t cells IH]; intros H; [reflexivity|].
  simpl in H. apply andb_prop in H. destruct H as [Ht Hcells].
  specialize (IH Hcells).
  destruct cells as [|t' cells]; simpl map; cbn [String.concat].
  - rewrite break_free_cell. exact Ht.
  - rewrite !break_free_app, break_free_cell, Ht. simpl. exact IH.
Qed.

(** A text without line break, ended by CR LF, is a line. *)
Lemma file_lines_line (body tail : string) :
  break_free body = true ->
  file_lines (body ++ crlf ++ tail) = body :: file_lines tail.
Proof.
  induction body as [|c body IH]; intros H; [reflexivity|].
  simpl in H. apply andb_prop in H. destruct H as [Hc Hbody].
  apply negb_true_iff in Hc. apply orb_false_elim in Hc. destruct Hc as [Hcr Hlf].
  change (String c body ++ crlf ++ tail)%string
    with (String c (body ++ crlf ++ tail))%string.
  cbn [file_lines]. rewrite Hlf, Hcr, (IH Hbody). reflexivity.
Qed.

Lemma file_lines_records (records : list (list string)) :
  forallb (forallb break_free) records = true ->
  file_lines (text_of_lines (map csv_record records))
  = map (fun cells => String.concat "," (map csv_cell cells)) records.
Proof.
  induction records as [|cells records IH]; intros H; [reflexivity|].
  simpl in H. apply andb_prop in H. destruct H as [Hcells Hrecords].
  simpl. unfold csv_record at 1. rewrite string_app_assoc.
  rewrite (file_lines_line _ _ (break_free_cells cells Hcells)), (IH Hrecords).
  reflexivity.
Qed.

Lemma file_lines_csv_file (header : list string) (records : list (list string)) :
  forallb break_free header = true ->
  file_lines (csv_file header records)
  = String.concat "," (map csv_cell header)
    :: file_lines (text_of_lines (map csv_record records)).
Proof.
  intros H. unfold csv_file, csv_record. rewrite string_app_assoc.
  apply file_lines_line. apply break_free_cells. exact H.
Qed.

Section Writer.

Variable requests_get : value -> list (string * string) -> result response.
Variable py_str : value -> string.
Variable open_error : string -> option string -> option exn.
Variable write_error : string -> option string -> string -> option exn.

(** C6, as amended.  In a run where the file opens and takes every row,
    each file holds the fixed header row, then one record per entry or
    network, the fields in the fixed column order: [id], [name],
    [identifiers] for the organizations, [practitionerRole], [network] for
    the networks.  A record is its fields, quoted where needed, separated
    by commas and ended by CR LF.  The header row is always the first line
    of the file; with no record the file is the header row alone; and when
    no field holds a CR or a LF the lines of the file are exactly the
    header row and one line per record. *)
Theorem csv_header_then_records
  (fuel : nat) (api_url_1 : value) (filename : string) (w w1 w2 : world)
  (all_entries data : list value) (rows : list (list value))
  (networks : list network_row) :
  (org_fetch requests_get fuel api_url_1 [] w = Some (w1, Ok all_entries) ->
   mapM org_row all_entries = Ok rows ->
   open_error filename (Some "utf-8") = None ->
   writes_all write_error filename (Some "utf-8")
     (["id"; "name"; "identifiers"] :: map (map (field_text py_str)) rows) ->
   exists w' : world,
     export_org_id_to_csv requests_get py_str open_error write_error fuel api_url_1
       filename w
     = Some (w', Ok tt)
     /\ files w' filename
        = Some (csv_file ["id"; "name"; "identifiers"]
                  (map (map (field_text py_str)) rows))
     /\ Forall (fun row => List.length row = 3) rows)
  /\ (fetch_all_data requests_get fuel (VStr api_url_2) w = Some (w2, Ok data) ->
      extract_networks data = Ok networks ->
      open_error "associated_networks.csv" None = None ->
      writes_all write_error "associated_networks.csv" None
        (["practitionerRole"; "network"] :: map (network_cells py_str) networks) ->
      exists w' : world,
        export_networks requests_get py_str open_error write_error fuel w = Some w'
        /\ files w' "associated_networks.csv"
           = Some (csv_file ["practitionerRole"; "network"]
                     (map (network_cells py_str) networks)))
  /\ csv_file ["id"; "name"; "identifiers"] []
     = ("id,name,identifiers" ++ crlf)%string
  /\ csv_file ["practitionerRole"; "network"] []
     = ("practitionerRole,network" ++ crlf)%string
  /\ (forall records : list (list string),
        file_lines (csv_file ["id"; "name"; "identifiers"] records)
        = "id,name,identifiers" :: file_lines (text_of_lines (map csv_record records)))
  /\ (forall records : list (list string),
        file_lines (csv_file ["practitionerRole"; "network"] records)
        = "practitionerRole,network"
          :: file_lines (text_of_lines (map csv_record records)))
  /\ (forall (header : list string) (records : list (list string)),
        forallb (forallb break_free) (header :: records) = true ->
        file_lines (csv_file header records)
        = map (fun cells => String.concat "," (map csv_cell cells)) (header :: records)).
Proof.
  split.
  { intros Hfetch Hrows Hopen Hall. eexists. split.
    - exact (export_after_fetch requests_get py_str open_error write_error fuel
               api_url_1 filename w w1 all_entries rows Hfetch Hrows Hopen Hall).
    - split.
      + simpl. rewrite String.eqb_refl. reflexivity.
      + exact (proj2 (org_rows_records py_str all_entries rows Hrows)). }
  split.
  { intros Hdata Hnetworks Hopen Hall. eexists. split.
    - exact (export_networks_after_fetch requests_get py_str open_error write_error
               fuel w w2 data networks Hdata Hnetworks Hopen Hall).
    - reflexivity. }
  split; [reflexivity|]. split; [reflexivity|]. split.
  { intros records.
    exact (file_lines_csv_file ["id"; "name"; "identifiers"] records eq_refl). }
  split.
  { intros records.
    exact (file_lines_csv_file ["practitionerRole"; "network"] records eq_refl). }
  intros header records H. simpl in H. apply andb_prop in H.
  destruct H as [Hheader Hrecords].
  rewrite (file_lines_csv_file header records Hheader).
  rewrite (file_lines_records records Hrecords). reflexivity.
Qed.

End Writer.

(** ** A link object without [relation] *)

(** The loop of [export_org_id_to_csv] passes over a link object that has
    no [relation]. *)
Lemma org_next_link_tolerates (pre post : list value) (d : list (string * value)) :
  lookup "relation" d = None ->
  org_next_link (pre ++ VDict d :: post) = org_next_link (pre ++ post).
Proof.
  intros Hd. induction pre as [|link pre IH]; simpl.
  - rewrite Hd. reflexivity.
  - destruct (py_get link "relation" VNone) as [relation|]; simpl; [|reflexivity].
    destruct (py_eq_str relation "next"); [reflexivity|exact IH].
Qed.

(** The loop of [fetch_all_data] stops on it, when it gets there. *)
Lemma net_next_link_raises (pre post : list value) (d : list (string * value)) :
  forallb is_object pre = true ->
  existsb is_next pre = false ->
  lookup "relation" d = None ->
  net_next_link (pre ++ VDict d :: post) = Raise (KeyError "relation").
Proof.
  intros Hpre Hnone Hd. induction pre as [|link pre IH]; simpl.
  - rewrite Hd. reflexivity.
  - simpl in Hpre. apply andb_prop in Hpre. destruct Hpre as [Hlink Hpre].
    cbn [existsb] in Hnone. apply orb_false_elim in Hnone.
    destruct Hnone as [Hnext Hnone].
    destruct link as [ | | | | |l|x]; try discriminate Hlink.
    simpl in *. destruct (lookup "relation" x) as [relation|]; [|reflexivity].
    simpl. rewrite Hnext. exact (IH Hpre Hnone).
Qed.

(** C9, as amended.  When a page's [link] array holds an object without
    [relation] ahead of any link whose relation is [next], the links before
    it being objects, [fetch_all_data] raises [KeyError] on
    [link['relation']] at that page; the loop of [export_org_id_to_csv]
    passes over such an object, wherever it stands, and goes on scanning
    the remaining links. *)
Theorem link_without_relation
  (requests_get : value -> list (string * string) -> result response)
  (fuel : nat) (u : string) (data d : list (string * value)) (pre post : list value)
  (all_data : list value) (w : world) :
  u <> "" ->
  requests_get (VStr u) [] = Ok (mkResponse 200 (Ok (VDict data))) ->
  optional_list (fun _ => true) data "entry" = true ->
  lookup "link" data = Some (VList (pre ++ VDict d :: post)) ->
  lookup "relation" d = None ->
  forallb is_object pre = true ->
  existsb is_next pre = false ->
  fetch_all_data_from requests_get (S fuel) (VStr u) all_data w
  = Some (log_request (VStr u) [] w, Raise (KeyError "relation"))
  /\ forall scanned : list value,
       org_next_link (scanned ++ VDict d :: post) = org_next_link (scanned ++ post).
Proof.
  intros Hurl Hget Hentry Hlink Hd Hpre Hnone.
  split; [|intros scanned; apply org_next_link_tolerates; exact Hd].
  cbn [fetch_all_data_from]. rewrite (truthy_url u Hurl), Hget.
  cbn [status_code json]. rewrite Z.eqb_refl, bind_ok.
  unfold net_page. simpl py_contains. rewrite bind_ok.
  unfold optional_list in Hentry.
  assert (Hscan : (link <- py_get (VDict data) "link" (VList []) ;;
                   links <- py_iter link ;;
                   next <- net_next_link links ;;
                   Ok (all_data, next)) = Raise (KeyError "relation")
                  /\ forall items : list value,
                       (link <- py_get (VDict data) "link" (VList []) ;;
                        links <- py_iter link ;;
                        next <- net_next_link links ;;
                        Ok (all_data ++ items, next)) = Raise (KeyError "relation")).
  { simpl. rewrite Hlink. simpl.
    rewrite (net_next_link_raises pre post d Hpre Hnone Hd). split; reflexivity. }
  destruct Hscan as [Hscan0 Hscan1].
  destruct (lookup "entry" data) as [entry|] eqn:He.
  - destruct entry as [ | | | | |entry|x]; try discriminate Hentry.
    simpl. rewrite He. simpl. simpl in Hscan1. rewrite Hscan1. reflexivity.
  - simpl in *. rewrite Hscan0. reflexivity.
Qed.

(** ** The examples, worked *)

Lemma example_chain (hdrs : list (string * string)) :
  chain example_server hdrs [page1; page2].
Proof.
  apply chain_next with (link := link_to "next" "https://example.org/page2").
  - repeat split. discriminate.
  - reflexivity.
  - reflexivity.
  - apply chain_last; [repeat split; discriminate|reflexivity].
Qed.

Lemma example_broken_chain (hdrs : list (string * string)) :
  broken_chain example_server hdrs 503 "https://example.org/down"
    "https://example.org/last-good" [last_good].
Proof.
  apply (broken_later example_server hdrs 503 "https://example.org/down" last_good []
           (link_to "next" "https://example.org/down") "https://example.org/down").
  - repeat split. discriminate.
  - reflexivity.
  - reflexivity.
  - eapply broken_here; [discriminate|reflexivity|reflexivity|discriminate].
Qed.

Lemma down_broken_chain (hdrs : list (string * string)) (u : string) :
  u <> "" -> broken_chain down_server hdrs 503 u u [].
Proof.
  intros Hu. eapply broken_here; [exact Hu|reflexivity|reflexivity|discriminate].
Qed.

Lemma org_row_flattens_witness :
  org_row cottage_hospital = Ok [VStr "484295"; VStr "Cottage Hospital"; VStr "A, B"].
Proof. exact (proj1 (org_row_flattens cottage_hospital eq_refl)). Defined.

Lemma extract_networks_one_pair_per_extension_witness :
  extract_networks ([role] ++ role :: [])
  = Ok ([mkNetwork (VStr "role-1") (VStr "Blue Network");
         mkNetwork (VStr "role-1") (VStr "Unknown")]
        ++ [mkNetwork (VStr "role-1") (VStr "Blue Network");
            mkNetwork (VStr "role-1") (VStr "Unknown")] ++ []).
Proof.
  exact (proj1 (extract_networks_one_pair_per_extension [role] [] role _ []
                  eq_refl eq_refl eq_refl)).
Defined.

Lemma network_name_preference_witness :
  extract_networks [role]
  = Ok [mkNetwork (VStr "role-1") (VStr "Blue Network");
        mkNetwork (VStr "role-1") (VStr "Unknown")].
Proof.
  exact (proj1 (network_name_preference [("resource", VDict role_resource)] role_resource
                  [("url", VStr network_reference); ("valueReference", VDict [])]
                  (VStr "role-1")
                  [VDict [("url", VStr "http://example.org/other")];
                   network_extension [("reference", VStr "Organization/1");
                                      ("display", VStr "Blue Network")]]
                  [] eq_refl eq_refl eq_refl eq_refl eq_refl)).
Defined.

Lemma missing_resource_raises_witness :
  extract_networks ([role] ++ VDict [("fullUrl", VStr "x")] :: [role])
  = Raise (KeyError "resource")
  /\ org_row (VDict [("fullUrl", VStr "x")]) = Ok [VStr ""; VStr ""; VStr ""].
Proof.
  destruct (missing_resource_raises [role] [role] [("fullUrl", VStr "x")] eq_refl)
    as [Hraise [_ Hrow]].
  split; [exact Hraise|exact Hrow].
Defined.

Lemma missing_url_or_id_raises_witness :
  extract_networks
    ([role] ++ VDict [("resource",
                       VDict [("extension", VList ([] ++ network_extension [] :: []))])]
            :: [])
  = Raise (KeyError "id")
  /\ extract_networks
       ([] ++ VDict [("resource",
                      VDict [("id", VStr "role-2");
                             ("extension",
                              VList ([network_extension []]
                                     ++ VDict [("valueReference", VDict [])] :: []))])]
           :: [role])
     = Raise (KeyError "url").
Proof.
  split.
  - apply (missing_url_or_id_raises [role] [] [] []
             [("resource", VDict [("extension", VList ([] ++ network_extension [] :: []))])]
             [("extension", VList ([] ++ network_extension [] :: []))]
             [("url", VStr network_reference); ("valueReference", VDict [])]
             "id" eq_refl eq_refl).
    right. repeat split.
  - apply (missing_url_or_id_raises [] [role] [network_extension []] []
             [("resource",
               VDict [("id", VStr "role-2");
                      ("extension",
                       VList ([network_extension []]
                              ++ VDict [("valueReference", VDict [])] :: []))])]
             [("id", VStr "role-2");
              ("extension",
               VList ([network_extension []]
                      ++ VDict [("valueReference", VDict [])] :: []))]
             [("valueReference", VDict [])]
             "url" eq_refl eq_refl).
    left. repeat split.
Defined.

Lemma pagination_follows_chain_witness :
  org_fetch example_server 2 (VStr "https://example.org/page1") [] empty_world
  = Some (visit headers ["https://example.org/page1"; "https://example.org/page2"]
                empty_world,
          Ok [cottage_hospital; nameless])
  /\ fetch_all_data example_server 2 (VStr "https://example.org/page1") empty_world
     = Some (visit [] ["https://example.org/page1"; "https://example.org/page2"]
                   empty_world,
             Ok [cottage_hospital; nameless]).
Proof.
  split.
  - apply (proj1 (pagination_follows_chain example_server headers [page1; page2] 2
                    empty_world (example_chain headers) (le_n 2))).
    reflexivity.
  - apply (proj1 (proj2 (pagination_follows_chain example_server [] [page1; page2] 2
                           empty_world (example_chain []) (le_n 2)))).
    reflexivity.
Defined.

Lemma csv_header_then_records_witness :
  (exists w' : world,
      export_org_id_to_csv example_server str_of_scalar always_opens always_writes 2
        (VStr "https://example.org/page1") "organization_ids.csv" empty_world
      = Some (w', Ok tt)
      /\ files w' "organization_ids.csv"
         = Some (csv_file ["id"; "name"; "identifiers"]
                   [["484295"; "Cottage Hospital"; "A, B"]; ["7"; ""; ""]]))
  /\ (exists w' : world,
         export_networks example_server str_of_scalar always_opens always_writes 2
           empty_world
         = Some w'
         /\ files w' "associated_networks.csv"
            = Some (csv_file ["practitionerRole"; "network"]
                      [["role-1"; "Blue Network"]; ["role-1"; "Unknown"]])).
Proof.
  destruct (csv_header_then_records example_server str_of_scalar always_opens
              always_writes 2
              (VStr "https://example.org/page1") "organization_ids.csv"
              empty_world
              (visit headers ["https://example.org/page1"; "https://example.org/page2"]
                     empty_world)
              (visit [] [api_url_2] empty_world)
              [cottage_hospital; nameless] [role]
              [[VStr "484295"; VStr "Cottage Hospital"; VStr "A, B"];
               [VInt 7; VStr ""; VStr ""]]
              [mkNetwork (VStr "role-1") (VStr "Blue Network");
               mkNetwork (VStr "role-1") (VStr "Unknown")])
    as [Horg [Hnet _]].
  split.
  - destruct (Horg eq_refl eq_refl eq_refl (fun cells _ => eq_refl))
      as [w' [Hexport [Hfile _]]].
    exists w'. split; [exact Hexport|exact Hfile].
  - exact (Hnet eq_refl eq_refl eq_refl (fun cells _ => eq_refl)).
Defined.

(** C6, as stated, fails here: one organization, whose name is in two
    lines, is written without error, and the file has three lines, the
    header row and two for the one record. *)
Lemma record_in_two_lines :
  exists (w' : world) (text : string),
    org_fetch accented_server 1 (VStr "https://example.org/two-lines") [] empty_world
    = Some (visit headers ["https://example.org/two-lines"] empty_world,
            Ok [two_line_name])
    /\ export_org_id_to_csv accented_server str_of_scalar always_opens always_writes 1
         (VStr "https://example.org/two-lines") "organization_ids.csv" empty_world
       = Some (w', Ok tt)
    /\ files w' "organization_ids.csv" = Some text
    /\ text
       = ("id,name,identifiers" ++ crlf
          ++ "1," ++ String "034" ("A" ++ String "010" ("B" ++ String "034" ("," ++ crlf))))%string
    /\ file_lines text
       = ["id,name,identifiers";
          String "1" (String "," (String "034" "A"));
          String "B" (String "034" ",")].
Proof.
  do 2 eexists. split; [reflexivity|]. split; [reflexivity|].
  split; [reflexivity|]. split; reflexivity.
Qed.

Lemma org_non_200_stops_and_writes_witness :
  (exists w' : world,
      export_org_id_to_csv example_server str_of_scalar always_opens always_writes 2
        (VStr "https://example.org/last-good") "organization_ids.csv" old_world
      = Some (w', Ok tt)
      /\ stdout w'
         = [Line "Failed to retrieve data: 503";
            Line "Data has been exported to organization_ids.csv"]
      /\ files w' "organization_ids.csv"
         = Some (csv_file ["id"; "name"; "identifiers"]
                   [["484295"; "Cottage Hospital"; "A, B"]])
      /\ files w' "associated_networks.csv" = Some "old networks")
  /\ (exists w' : world,
         export_org_id_to_csv down_server str_of_scalar always_opens always_writes 1
           (VStr "https://example.org/page1") "organization_ids.csv" old_world
         = Some (w', Ok tt)
         /\ stdout w'
            = [Line "Failed to retrieve data: 503";
               Line "Data has been exported to organization_ids.csv"]
         /\ files w' "organization_ids.csv" = Some ("id,name,identifiers" ++ crlf)%string).
Proof.
  split.
  - destruct (proj2 (org_non_200_stops_and_writes example_server str_of_scalar
                       always_opens always_writes
                       503 "https://example.org/down"
                       "https://example.org/last-good" [last_good] 2
                       "organization_ids.csv"
                       [[VStr "484295"; VStr "Cottage Hospital"; VStr "A, B"]]
                       old_world (example_broken_chain headers) (le_n 2)
                       eq_refl eq_refl (fun cells _ => eq_refl)))
      as [w' [Hexport [_ [Hout [Hfile [Hothers _]]]]]].
    exists w'. split; [exact Hexport|]. split; [exact Hout|].
    split; [exact Hfile|].
    rewrite (Hothers "associated_networks.csv") by discriminate. reflexivity.
  - destruct (proj2 (org_non_200_stops_and_writes down_server str_of_scalar
                       always_opens always_writes
                       503 "https://example.org/page1"
                       "https://example.org/page1" [] 1
                       "organization_ids.csv" [] old_world
                       (down_broken_chain headers "https://example.org/page1"
                          ltac:(discriminate))
                       (le_n 1) eq_refl eq_refl (fun cells _ => eq_refl)))
      as [w' [Hexport [_ [Hout [_ [_ Hfirst]]]]]].
    exists w'. split; [exact Hexport|]. split; [exact Hout|].
    exact (Hfirst eq_refl).
Defined.

Lemma network_non_200_aborts_witness :
  export_networks down_server str_of_scalar always_opens always_writes 1 empty_world
  = Some (mkWorld [mkRequest (VStr api_url_2) []]
            [ExnLine (Exception "Failed to fetch data. Status code: 503")]
            (fun _ => None))
  /\ fetch_all_data example_server 2 (VStr "https://example.org/last-good") empty_world
     = Some (visit [] ["https://example.org/last-good"; "https://example.org/down"]
                   empty_world,
             Raise (Exception "Failed to fetch data. Status code: 503")).
Proof.
  split.
  - apply (proj1 (proj2 (network_non_200_aborts down_server str_of_scalar
                           always_opens always_writes 503
                           api_url_2 api_url_2 [] 1 empty_world
                           (down_broken_chain [] api_url_2 ltac:(discriminate))
                           (le_n 1)))).
    reflexivity.
  - exact (proj1 (network_non_200_aborts example_server str_of_scalar
                    always_opens always_writes 503
                    "https://example.org/down" "https://example.org/last-good"
                    [last_good] 2 empty_world (example_broken_chain []) (le_n 2))).
Defined.

(** C9, as stated, fails here: the [link] array of the first page holds an
    object without [relation], and [fetch_all_data] follows the next link
    that comes before it and returns the entries of both pages. *)
Lemma link_without_relation_after_next :
  In (VDict stray_link) (links_of (page_data roles1))
  /\ lookup "relation" stray_link = None
  /\ fetch_all_data stray_server 2 (VStr "https://example.org/roles1") empty_world
     = Some (visit [] ["https://example.org/roles1"; "https://example.org/roles2"]
                   empty_world,
             Ok [role; role]).
Proof.
  split; [right; left; reflexivity|]. split; reflexivity.
Qed.

Lemma link_without_relation_witness :
  fetch_all_data stray_server 1 (VStr "https://example.org/roles3") empty_world
  = Some (visit [] ["https://example.org/roles3"] empty_world,
          Raise (KeyError "relation"))
  /\ org_next_link (links_of (page_data roles3))
     = Ok (VStr "https://example.org/roles2").
Proof.
  destruct (link_without_relation stray_server 0 "https://example.org/roles3"
              [("entry", VList [role]);
               ("link", VList ([link_to "self" "https://example.org/roles3"]
                               ++ VDict stray_link
                               :: [link_to "next" "https://example.org/roles2"]))]
              stray_link
              [link_to "self" "https://example.org/roles3"]
              [link_to "next" "https://example.org/roles2"]
              [] empty_world
              ltac:(discriminate) eq_refl eq_refl eq_refl eq_refl eq_refl eq_refl)
    as [Hnet Horg].
  split; [exact Hnet|].
  exact (eq_trans (Horg [link_to "self" "https://example.org/roles3"]) eq_refl).
Defined.

(** * Further properties of the script *)

(** ** What the loops do to the world *)

Section Effects.

Variable requests_get : value -> list (string * string) -> result response.
Variable py_str : value -> string.
Variable open_error : string -> option string -> option exn.
Variable write_error : string -> option string -> string -> option exn.

Lemma org_fetch_world (fuel : nat) :
  forall (url : value) (all : list value) (w w' : world) (r : result (list value)),
    org_fetch requests_get fuel url all w = Some (w', r) ->
    files w' = files w
    /\ (exists new : list request,
           requests w' = requests w ++ new
           /\ Forall (fun q => req_headers q = headers) new)
    /\ (stdout w' = stdout w
        \/ exists (code : Z) (found : list value),
             code <> 200%Z /\ r = Ok found
             /\ stdout w'
                = stdout w ++ [Line ("Failed to retrieve data: " ++ format_int code)]).
Proof.
  induction fuel as [|fuel IH]; intros url all w w' r H; cbn [org_fetch] in H.
  - destruct (py_truthy url); [discriminate H|].
    injection H as <- <-. split; [reflexivity|]. split; [|left; reflexivity].
    exists []. rewrite app_nil_r. split; [reflexivity|constructor].
  - destruct (py_truthy url).
    + destruct (requests_get url headers) as [resp|e].
      * destruct (Z.eqb_spec (status_code resp) 200) as [Hcode|Hcode].
        -- destruct (data <- json resp ;; org_page all data) as [[all' next]|e].
           ++ destruct (IH _ _ _ _ _ H) as [Hfiles [[new [Hreq Hnew]] Hout]].
              split; [exact Hfiles|]. split; [|exact Hout].
              exists (mkRequest url headers :: new). split.
              ** rewrite Hreq. simpl. rewrite <- app_assoc. reflexivity.
              ** constructor; [reflexivity|exact Hnew].
           ++ injection H as <- <-. split; [reflexivity|].
              split; [|left; reflexivity].
              exists [mkRequest url headers]. split; [reflexivity|].
              constructor; [reflexivity|constructor].
        -- injection H as <- <-. split; [reflexivity|]. split.
           ++ exists [mkRequest url headers]. split; [reflexivity|].
              constructor; [reflexivity|constructor].
           ++ right. exists (status_code resp), all. repeat split. exact Hcode.
      * injection H as <- <-. split; [reflexivity|]. split; [|left; reflexivity].
        exists [mkRequest url headers]. split; [reflexivity|].
        constructor; [reflexivity|constructor].
    + injection H as <- <-. split; [reflexivity|]. split; [|left; reflexivity].
      exists []. rewrite app_nil_r. split; [reflexivity|constructor].
Qed.

Lemma fetch_all_data_world (fuel : nat) :
  forall (url : value) (all : list value) (w w' : world) (r : result (list value)),
    fetch_all_data_from requests_get fuel url all w = Some (w', r) ->
    files w' = files w
    /\ stdout w' = stdout w
    /\ exists new : list request,
         requests w' = requests w ++ new
         /\ Forall (fun q => req_headers q = []) new.
Proof.
  induction fuel as [|fuel IH]; intros url all w w' r H; cbn [fetch_all_data_from] in H.
  - destruct (py_truthy url); [discriminate H|].
    injection H as <- <-. repeat split.
    exists []. rewrite app_nil_r. split; [reflexivity|constructor].
  - destruct (py_truthy url).
    + destruct (requests_get url []) as [resp|e].
      * destruct (status_code resp =? 200)%Z.
        -- destruct (data <- json resp ;; net_page all data) as [[all' next]|e].
           ++ destruct (IH _ _ _ _ _ H) as [Hfiles [Hout [new [Hreq Hnew]]]].
              split; [exact Hfiles|]. split; [exact Hout|].
              exists (mkRequest url [] :: new). split.
              ** rewrite Hreq. simpl. rewrite <- app_assoc. reflexivity.
              ** constructor; [reflexivity|exact Hnew].
           ++ injection H as <- <-. repeat split.
              exists [mkRequest url []]. split; [reflexivity|].
              constructor; [reflexivity|constructor].
        -- injection H as <- <-. repeat split.
           exists [mkRequest url []]. split; [reflexivity|].
           constructor; [reflexivity|constructor].
      * injection H as <- <-. repeat split.
        exists [mkRequest url []]. split; [reflexivity|].
        constructor; [reflexivity|constructor].
    + injection H as <- <-. repeat split.
      exists []. rewrite app_nil_r. split; [reflexivity|constructor].
Qed.

(** What one page adds to the entries gathered. *)
Lemma org_page_items (all all' : list value) (data next : value) :
  org_page all data = Ok (all', next) ->
  exists d : list (string * value),
    data = VDict d
    /\ all' = all ++ match lookup "entry" d with
                     | Some v => match py_iter v with
                                 | Ok items => items
                                 | Raise _ => []
                                 end
                     | None => []
                     end.
Proof.
  unfold org_page. intros H.
  destruct data as [ | | | | |l|d]; try discriminate H.
  exists d. split; [reflexivity|].
  rewrite !py_get_dict in H. unfold field in H. simpl in H.
  destruct (lookup "entry" d) as [v|].
  - destruct (py_iter v) as [items|]; [|discriminate H]. simpl in H.
    destruct (py_iter match lookup "link" d with Some v0 => v0 | None => VList [] end)
      as [links|]; [|discriminate H].
    simpl in H. destruct (org_next_link links); [|discriminate H].
    injection H as <- _. reflexivity.
  - simpl in H.
    destruct (py_iter match lookup "link" d with Some v0 => v0 | None => VList [] end)
      as [links|]; [|discriminate H].
    simpl in H. destruct (org_next_link links); [|discriminate H].
    injection H as <- _. reflexivity.
Qed.

Lemma org_fetch_trace (fuel : nat) :
  forall (url : value) (all : list value) (w w' : world) (r : result (list value)),
    org_fetch requests_get fuel url all w = Some (w', r) ->
    exists urls : list value,
      requests w' = requests w ++ map (fun u => mkRequest u headers) urls
      /\ (forall found : list value,
            r = Ok found ->
            found = all ++ flat_map (entries_at requests_get headers) urls)
      /\ (stdout w' = stdout w
          \/ exists (before : list value) (u : value) (resp : response)
                    (found : list value),
               urls = before ++ [u]
               /\ requests_get u headers = Ok resp
               /\ status_code resp <> 200%Z
               /\ r = Ok found
               /\ stdout w'
                  = stdout w
                    ++ [Line ("Failed to retrieve data: "
                              ++ format_int (status_code resp))]).
Proof.
  induction fuel as [|fuel IH]; intros url all w w' r H; cbn [org_fetch] in H.
  - destruct (py_truthy url); [discriminate H|].
    injection H as <- <-. exists []. simpl. rewrite !app_nil_r.
    split; [reflexivity|]. split; [|left; reflexivity].
    intros found Hfound. injection Hfound as <-. reflexivity.
  - destruct (py_truthy url).
    + destruct (requests_get url headers) as [resp|e] eqn:Hget.
      * destruct (Z.eqb_spec (status_code resp) 200) as [Hcode|Hcode].
        -- destruct (json resp) as [data|e] eqn:Hjson; simpl in H.
           ++ destruct (org_page all data) as [[all' next]|e] eqn:Hpage.
              ** destruct (IH _ _ _ _ _ H) as [urls [Hreq [Hfound Hout]]].
                 destruct (org_page_items all all' data next Hpage) as [d [-> Hall']].
                 exists (url :: urls). split.
                 { rewrite Hreq. simpl. rewrite <- app_assoc. reflexivity. }
                 split.
                 { intros found Hr. rewrite (Hfound found Hr), Hall'.
                   simpl. unfold entries_at at 2. rewrite Hget, Hcode, Hjson.
                   simpl. rewrite <- app_assoc. reflexivity. }
                 destruct Hout as [Hout|[before [u [resp' [found Hlast]]]]];
                   [left; exact Hout|].
                 destruct Hlast as [-> [Hu [Hc [Hr Hprinted]]]].
                 right. exists (url :: before), u, resp', found.
                 repeat split; try assumption.
              ** injection H as <- <-. exists [url]. split; [reflexivity|].
                 split; [intros found Hr; discriminate Hr|left; reflexivity].
           ++ injection H as <- <-. exists [url]. split; [reflexivity|].
              split; [intros found Hr; discriminate Hr|left; reflexivity].
        -- injection H as <- <-. exists [url]. split; [reflexivity|]. split.
           ++ intros found Hr. injection Hr as <-. simpl.
              unfold entries_at. rewrite Hget.
              destruct (Z.eqb_spec (status_code resp) 200); [contradiction|].
              rewrite app_nil_r. reflexivity.
           ++ right. exists [], url, resp, all. repeat split; assumption.
      * injection H as <- <-. exists [url]. split; [reflexivity|].
        split; [intros found Hr; discriminate Hr|left; reflexivity].
    + injection H as <- <-. exists []. simpl. rewrite !app_nil_r.
      split; [reflexivity|]. split; [|left; reflexivity].
      intros found Hfound. injection Hfound as <-. reflexivity.
Qed.

(** X1.  Whatever the server answers and however the loop of
    [export_org_id_to_csv] ends, it writes no file, and every request it
    issues carries the [Accept] header of line 28 and is added after
    those already issued.  When it returns, it returns what it had in hand
    followed by the entries of the pages it asked for, in the order of the
    requests.  It prints nothing, or, when the last answer has a status
    other than 200, one line with that status, and then it returns. *)
Theorem org_fetch_effects
  (fuel : nat) (url : value) (all : list value) (w w' : world)
  (r : result (list value)) :
  org_fetch requests_get fuel url all w = Some (w', r) ->
  files w' = files w
  /\ exists urls : list value,
       requests w'
       = requests w
         ++ map (fun u => mkRequest u [("Accept", "application/fhir+json")]) urls
       /\ (forall found : list value,
             r = Ok found ->
             found
             = all ++ flat_map (entries_at requests_get
                                  [("Accept", "application/fhir+json")]) urls)
       /\ (stdout w' = stdout w
           \/ exists (before : list value) (u : value) (resp : response)
                     (found : list value),
                urls = before ++ [u]
                /\ requests_get u [("Accept", "application/fhir+json")] = Ok resp
                /\ status_code resp <> 200%Z
                /\ r = Ok found
                /\ stdout w'
                   = stdout w
                     ++ [Line ("Failed to retrieve data: "
                               ++ format_int (status_code resp))]).
Proof.
  intros H. split.
  - exact (proj1 (org_fetch_world fuel url all w w' r H)).
  - exact (org_fetch_trace fuel url all w w' r H).
Qed.

(** X2.  Whatever the server answers and however [fetch_all_data] ends, it
    writes no file, prints nothing, and every request it issues carries no
    header and is added after those already issued. *)
Theorem fetch_all_data_effects
  (fuel : nat) (url : value) (w w' : world) (r : result (list value)) :
  fetch_all_data requests_get fuel url w = Some (w', r) ->
  files w' = files w
  /\ stdout w' = stdout w
  /\ exists new : list request,
       requests w' = requests w ++ new
       /\ Forall (fun q => req_headers q = []) new.
Proof. exact (fetch_all_data_world fuel url [] w w' r). Qed.

(** X3.  [export_org_id_to_csv] changes no file but the one it is given the
    name of, whatever happens; when fetching raises, that file is left as
    it was too and nothing is printed.  In particular the call of lines
    80-81 never touches the file of the networks. *)
Theorem export_org_writes_only_its_file
  (fuel : nat) (url : value) (filename : string) (w w' : world) (r : result unit) :
  export_org_id_to_csv requests_get py_str open_error write_error fuel url filename w
  = Some (w', r) ->
  (forall path : string, path <> filename -> files w' path = files w path)
  /\ (forall (w1 : world) (e : exn),
        org_fetch requests_get fuel url [] w = Some (w1, Raise e) ->
        w' = w1 /\ r = Raise e /\ files w' = files w /\ stdout w' = stdout w)
  /\ (url = VStr api_url_1 -> filename = "organization_ids.csv" ->
      export_organizations requests_get py_str open_error write_error fuel w
      = Some (w', r)
      /\ files w' "associated_networks.csv" = files w "associated_networks.csv").
Proof.
  intros H.
  assert (Hothers : forall path : string,
             path <> filename -> files w' path = files w path).
  { unfold export_org_id_to_csv in H. intros path Hpath.
    destruct (org_fetch requests_get fuel url [] w) as [[w1 [found|e]]|] eqn:Hfetch;
      [| |discriminate H].
    - destruct (org_fetch_world fuel url [] w w1 _ Hfetch) as [Hfiles _].
      destruct (open_error filename (Some "utf-8")) as [e|].
      + injection H as <- <-. rewrite Hfiles. reflexivity.
      + destruct (org_write py_str write_error filename found) as [text [u|e]];
          injection H as <- <-; simpl;
          (destruct (String.eqb_spec path filename); [contradiction|]);
          rewrite Hfiles; reflexivity.
    - injection H as <- <-.
      destruct (org_fetch_world fuel url [] w w1 _ Hfetch) as [Hfiles _].
      rewrite Hfiles. reflexivity. }
  split; [exact Hothers|]. split.
  - intros w1 e Hfetch. unfold export_org_id_to_csv in H. rewrite Hfetch in H.
    injection H as <- <-.
    destruct (org_fetch_world fuel url [] w w1 _ Hfetch) as [Hfiles [_ Hout]].
    repeat split; [exact Hfiles|].
    destruct Hout as [Hout|[code [found [_ [Hr _]]]]]; [exact Hout|discriminate Hr].
  - intros -> ->. split; [exact H|]. apply Hothers. discriminate.
Qed.




End Effects.

(** ** One turn of a loop, in general *)

Lemma org_fetch_falsy (requests_get : value -> list (string * string) -> result response)
  (fuel : nat) (url : value) (all : list value) (w : world) :
  py_truthy url = false ->
  org_fetch requests_get fuel url all w = Some (w, Ok all).
Proof. intros H. destruct fuel; cbn [org_fetch]; rewrite H; reflexivity. Qed.

Lemma fetch_all_data_falsy
  (requests_get : value -> list (string * string) -> result response)
  (fuel : nat) (url : value) (all : list value) (w : world) :
  py_truthy url = false ->
  fetch_all_data_from requests_get fuel url all w = Some (w, Ok all).
Proof. intros H. destruct fuel; cbn [fetch_all_data_from]; rewrite H; reflexivity. Qed.

Lemma org_fetch_turn (requests_get : value -> list (string * string) -> result response)
  (fuel : nat) (u : string) (data : value) (all : list value) (w : world) :
  u <> "" ->
  requests_get (VStr u) headers = Ok (mkResponse 200 (Ok data)) ->
  org_fetch requests_get (S fuel) (VStr u) all w
  = match org_page all data with
    | Ok (all', next) => org_fetch requests_get fuel next all' (log_request (VStr u) headers w)
    | Raise e => Some (log_request (VStr u) headers w, Raise e)
    end.
Proof.
  intros Hu Hget. cbn [org_fetch]. rewrite (truthy_url u Hu), Hget.
  cbn [status_code json]. rewrite Z.eqb_refl, bind_ok.
  destruct (org_page all data) as [[all' next]|e]; reflexivity.
Qed.

Lemma fetch_all_data_turn
  (requests_get : value -> list (string * string) -> result response)
  (fuel : nat) (u : string) (data : value) (all : list value) (w : world) :
  u <> "" ->
  requests_get (VStr u) [] = Ok (mkResponse 200 (Ok data)) ->
  fetch_all_data_from requests_get (S fuel) (VStr u) all w
  = match net_page all data with
    | Ok (all', next) =>
        fetch_all_data_from requests_get fuel next all' (log_request (VStr u) [] w)
    | Raise e => Some (log_request (VStr u) [] w, Raise e)
    end.
Proof.
  intros Hu Hget. cbn [fetch_all_data_from]. rewrite (truthy_url u Hu), Hget.
  cbn [status_code json]. rewrite Z.eqb_refl, bind_ok.
  destruct (net_page all data) as [[all' next]|e]; reflexivity.
Qed.

(** A page whose [entry] is absent or an array and whose [link] is an
    array: what is left is the scan of the links. *)
Lemma org_page_scan (all : list value) (data : list (string * value)) (links : list value) :
  optional_list (fun _ => true) data "entry" = true ->
  lookup "link" data = Some (VList links) ->
  org_page all (VDict data)
  = (next <- org_next_link links ;; Ok (all ++ list_field data "entry", next)).
Proof.
  intros Hentry Hlink. unfold org_page, optional_list, list_field in *.
  rewrite !py_get_dict. unfold field. rewrite Hlink. simpl.
  destruct (lookup "entry" data) as [entry|]; [|reflexivity].
  destruct entry as [ | | | | |entry|x]; try discriminate Hentry. reflexivity.
Qed.

Lemma net_page_scan (all : list value) (data : list (string * value)) (links : list value) :
  optional_list (fun _ => true) data "entry" = true ->
  lookup "link" data = Some (VList links) ->
  net_page all (VDict data)
  = (next <- net_next_link links ;; Ok (all ++ list_field data "entry", next)).
Proof.
  intros Hentry Hlink. unfold net_page, optional_list, list_field in *.
  rewrite !py_get_dict. unfold field. rewrite Hlink. simpl.
  destruct (lookup "entry" data) as [entry|].
  - destruct entry as [ | | | | |entry|x]; try discriminate Hentry. reflexivity.
  - simpl. rewrite app_nil_r. reflexivity.
Qed.

Lemma org_next_link_first (pre post : list value) (nxt : list (string * value)) :
  forallb is_object pre = true ->
  existsb is_next pre = false ->
  is_next (VDict nxt) = true ->
  org_next_link (pre ++ VDict nxt :: post) = Ok (field nxt "url" VNone).
Proof.
  intros Hpre Hnone Hnxt. induction pre as [|link pre IH]; simpl.
  - simpl in Hnxt. destruct (lookup "relation" nxt) as [relation|]; [|discriminate Hnxt].
    simpl. rewrite Hnxt. unfold field. destruct (lookup "url" nxt); reflexivity.
  - simpl in Hpre. apply andb_prop in Hpre. destruct Hpre as [Hlink Hpre].
    cbn [existsb] in Hnone. apply orb_false_elim in Hnone.
    destruct Hnone as [Hnext Hnone].
    destruct link as [ | | | | |l|x]; try discriminate Hlink.
    simpl in *. destruct (lookup "relation" x) as [relation|]; simpl.
    + rewrite Hnext. exact (IH Hpre Hnone).
    + exact (IH Hpre Hnone).
Qed.

Lemma net_next_link_first (pre post : list value) (nxt : list (string * value)) :
  forallb is_link pre = true ->
  existsb is_next pre = false ->
  is_next (VDict nxt) = true ->
  net_next_link (pre ++ VDict nxt :: post) = py_getitem (VDict nxt) "url".
Proof.
  intros Hpre Hnone Hnxt. induction pre as [|link pre IH]; simpl.
  - simpl in Hnxt. destruct (lookup "relation" nxt) as [relation|]; [|discriminate Hnxt].
    simpl. rewrite Hnxt. reflexivity.
  - simpl in Hpre. apply andb_prop in Hpre. destruct Hpre as [Hlink Hpre].
    cbn [existsb] in Hnone. apply orb_false_elim in Hnone.
    destruct Hnone as [Hnext Hnone].
    destruct link as [ | | | | |l|x]; try discriminate Hlink.
    simpl in *. destruct (lookup "relation" x) as [relation|]; [|discriminate Hlink].
    simpl. rewrite Hnext. exact (IH Hpre Hnone).
Qed.

Section Turns.

Variable requests_get : value -> list (string * string) -> result response.

(** X5.  In a [link] array both loops take the first link whose relation
    is [next], go on with its [url], and read nothing after it: whatever
    follows, further next links or things that are not links, has no
    effect. *)
Theorem first_next_link_decides
  (hdrs : list (string * string)) (fuel : nat) (u : string)
  (data nxt : list (string * value)) (pre post : list value) (next : value)
  (all : list value) (w : world) :
  u <> "" ->
  requests_get (VStr u) hdrs = Ok (mkResponse 200 (Ok (VDict data))) ->
  optional_list (fun _ => true) data "entry" = true ->
  lookup "link" data = Some (VList (pre ++ VDict nxt :: post)) ->
  forallb is_link pre = true ->
  existsb is_next pre = false ->
  is_next (VDict nxt) = true ->
  lookup "url" nxt = Some next ->
  (hdrs = headers ->
   org_fetch requests_get (S fuel) (VStr u) all w
   = org_fetch requests_get fuel next
       (all ++ list_field data "entry") (log_request (VStr u) hdrs w))
  /\ (hdrs = [] ->
      fetch_all_data_from requests_get (S fuel) (VStr u) all w
      = fetch_all_data_from requests_get fuel next
          (all ++ list_field data "entry") (log_request (VStr u) hdrs w)).
Proof.
  intros Hu Hget Hentry Hlink Hpre Hnone Hnxt Hurl. split; intros ->.
  - rewrite (org_fetch_turn requests_get fuel u _ all w Hu Hget).
    rewrite (org_page_scan all data _ Hentry Hlink).
    rewrite (org_next_link_first pre post nxt); [| |exact Hnone|exact Hnxt].
    + unfold field. rewrite Hurl. reflexivity.
    + clear -Hpre. induction pre as [|link pre IH]; [reflexivity|].
      simpl in *. apply andb_prop in Hpre. destruct Hpre as [Hlink Hpre].
      rewrite (IH Hpre). destruct link; try discriminate Hlink. reflexivity.
  - rewrite (fetch_all_data_turn requests_get fuel u _ all w Hu Hget).
    rewrite (net_page_scan all data _ Hentry Hlink).
    rewrite (net_next_link_first pre post nxt Hpre Hnone Hnxt).
    simpl. rewrite Hurl. reflexivity.
Qed.

(** X6.  A next link without [url] ends the loop of
    [export_org_id_to_csv] quietly, as if the page were the last one: it
    returns what it has gathered, this page included.  The same page makes
    [fetch_all_data] raise [KeyError] on [link['url']]. *)
Theorem next_link_without_url
  (hdrs : list (string * string)) (fuel : nat) (u : string)
  (data nxt : list (string * value)) (pre post : list value)
  (all : list value) (w : world) :
  u <> "" ->
  requests_get (VStr u) hdrs = Ok (mkResponse 200 (Ok (VDict data))) ->
  optional_list (fun _ => true) data "entry" = true ->
  lookup "link" data = Some (VList (pre ++ VDict nxt :: post)) ->
  forallb is_link pre = true ->
  existsb is_next pre = false ->
  is_next (VDict nxt) = true ->
  lookup "url" nxt = None ->
  (hdrs = headers ->
   org_fetch requests_get (S fuel) (VStr u) all w
   = Some (log_request (VStr u) hdrs w, Ok (all ++ list_field data "entry")))
  /\ (hdrs = [] ->
      fetch_all_data_from requests_get (S fuel) (VStr u) all w
      = Some (log_request (VStr u) hdrs w, Raise (KeyError "url"))).
Proof.
  intros Hu Hget Hentry Hlink Hpre Hnone Hnxt Hurl. split; intros ->.
  - rewrite (org_fetch_turn requests_get fuel u _ all w Hu Hget).
    rewrite (org_page_scan all data _ Hentry Hlink).
    rewrite (org_next_link_first pre post nxt); [| |exact Hnone|exact Hnxt].
    + unfold field. rewrite Hurl. simpl. apply org_fetch_falsy. reflexivity.
    + clear -Hpre. induction pre as [|link pre IH]; [reflexivity|].
      simpl in *. apply andb_prop in Hpre. destruct Hpre as [Hlink Hpre].
      rewrite (IH Hpre). destruct link; try discriminate Hlink. reflexivity.
  - rewrite (fetch_all_data_turn requests_get fuel u _ all w Hu Hget).
    rewrite (net_page_scan all data _ Hentry Hlink).
    rewrite (net_next_link_first pre post nxt Hpre Hnone Hnxt).
    simpl. rewrite Hurl. reflexivity.
Qed.

(** X7.  A next link whose [url] is null, the empty string or any other
    value that counts as false ends both loops without an error: they
    return what they have gathered, this page included, and the pages that
    may follow are not fetched. *)
Theorem falsy_next_url_ends_pagination
  (hdrs : list (string * string)) (fuel : nat) (p : page) (link : value)
  (all : list value) (w : world) :
  served requests_get hdrs p ->
  next_link (page_data p) = Some link ->
  py_truthy (link_url link) = false ->
  (hdrs = headers ->
   org_fetch requests_get (S fuel) (VStr (page_url p)) all w
   = Some (log_request (VStr (page_url p)) hdrs w,
           Ok (all ++ entries_of (page_data p))))
  /\ (hdrs = [] ->
      fetch_all_data_from requests_get (S fuel) (VStr (page_url p)) all w
      = Some (log_request (VStr (page_url p)) hdrs w,
              Ok (all ++ entries_of (page_data p)))).
Proof.
  intros Hp Hlink Hfalsy. split; intros ->.
  - rewrite (org_fetch_step requests_get fuel p all w Hp). unfold next_of.
    rewrite Hlink. apply org_fetch_falsy. exact Hfalsy.
  - rewrite (fetch_all_data_step requests_get fuel p all w Hp). unfold next_of.
    rewrite Hlink. apply fetch_all_data_falsy. exact Hfalsy.
Qed.

Lemma org_fetch_cycle (pages : list page) :
  (forall p : page, In p pages ->
     served requests_get headers p
     /\ exists q : page, In q pages /\ next_of (page_data p) = VStr (page_url q)) ->
  forall (fuel : nat) (p : page) (all : list value) (w : world),
    In p pages -> org_fetch requests_get fuel (VStr (page_url p)) all w = None.
Proof.
  intros Hclosed. induction fuel as [|fuel IH]; intros p all w Hin;
    destruct (Hclosed p Hin) as [Hp [q [Hq Hnext]]].
  - destruct Hp as [Hu _]. cbn [org_fetch]. rewrite (truthy_url _ Hu). reflexivity.
  - rewrite (org_fetch_step requests_get fuel p all w Hp), Hnext.
    apply IH. exact Hq.
Qed.

Lemma fetch_all_data_cycle (pages : list page) :
  (forall p : page, In p pages ->
     served requests_get [] p
     /\ exists q : page, In q pages /\ next_of (page_data p) = VStr (page_url q)) ->
  forall (fuel : nat) (p : page) (all : list value) (w : world),
    In p pages -> fetch_all_data_from requests_get fuel (VStr (page_url p)) all w = None.
Proof.
  intros Hclosed. induction fuel as [|fuel IH]; intros p all w Hin;
    destruct (Hclosed p Hin) as [Hp [q [Hq Hnext]]].
  - destruct Hp as [Hu _]. cbn [fetch_all_data_from]. rewrite (truthy_url _ Hu).
    reflexivity.
  - rewrite (fetch_all_data_step requests_get fuel p all w Hp), Hnext.
    apply IH. exact Hq.
Qed.

(** X8.  Neither loop notices that it comes back to a page it has already
    fetched.  When the next links of some pages lead only to pages among
    them, a loop started at one of them never returns, however many turns
    it is given: it asks for the same pages for ever. *)
Theorem pagination_cycle_never_returns
  (hdrs : list (string * string)) (pages : list page) (fuel : nat) (p : page)
  (w : world) :
  (forall p : page, In p pages ->
     served requests_get hdrs p
     /\ exists q : page, In q pages /\ next_of (page_data p) = VStr (page_url q)) ->
  In p pages ->
  (hdrs = headers -> org_fetch requests_get fuel (VStr (page_url p)) [] w = None)
  /\ (hdrs = [] -> fetch_all_data requests_get fuel (VStr (page_url p)) w = None).
Proof.
  intros Hclosed Hin. split; intros ->.
  - exact (org_fetch_cycle pages Hclosed fuel p [] w Hin).
  - exact (fetch_all_data_cycle pages Hclosed fuel p [] w Hin).
Qed.

End Turns.

(** ** What has been gathered stays *)

Lemma gathered_after_app (all items : list value)
  (outcome : option (world * result (list value))) :
  gathered_after all (gathered_after items outcome) = gathered_after (all ++ items) outcome.
Proof.
  destruct outcome as [[w [found|e]]|]; simpl; [|reflexivity|reflexivity].
  rewrite app_assoc. reflexivity.
Qed.

Lemma org_page_gathered (all : list value) (data : value) :
  org_page all data = result_map (fun x => (all ++ fst x, snd x)) (org_page [] data).
Proof.
  unfold org_page.
  destruct (py_get data "entry" (VList [])) as [entry|]; simpl; [|reflexivity].
  destruct (py_iter entry) as [items|]; simpl; [|reflexivity].
  destruct (py_get data "link" (VList [])) as [link|]; simpl; [|reflexivity].
  destruct (py_iter link) as [links|]; simpl; [|reflexivity].
  destruct (org_next_link links); reflexivity.
Qed.

Lemma net_page_gathered (all : list value) (data : value) :
  net_page all data = result_map (fun x => (all ++ fst x, snd x)) (net_page [] data).
Proof.
  unfold net_page.
  destruct (py_contains "entry" data) as [[|]|]; simpl; [| |reflexivity].
  - destruct (py_getitem data "entry") as [entry|]; simpl; [|reflexivity].
    destruct (py_iter entry) as [items|]; simpl; [|reflexivity].
    destruct (py_get data "link" (VList [])) as [link|]; simpl; [|reflexivity].
    destruct (py_iter link) as [links|]; simpl; [|reflexivity].
    destruct (net_next_link links); reflexivity.
  - destruct (py_get data "link" (VList [])) as [link|]; simpl; [|reflexivity].
    destruct (py_iter link) as [links|]; simpl; [|reflexivity].
    destruct (net_next_link links); simpl; [|reflexivity].
    rewrite app_nil_r. reflexivity.
Qed.

Section Gathering.

Variable requests_get : value -> list (string * string) -> result response.

Lemma org_fetch_gathered (fuel : nat) :
  forall (url : value) (all : list value) (w : world),
    org_fetch requests_get fuel url all w
    = gathered_after all (org_fetch requests_get fuel url [] w).
Proof.
  induction fuel as [|fuel IH]; intros url all w; cbn [org_fetch].
  - destruct (py_truthy url); simpl; [reflexivity|]. rewrite app_nil_r. reflexivity.
  - destruct (py_truthy url); simpl; [|rewrite app_nil_r; reflexivity].
    destruct (requests_get url headers) as [resp|e]; [|reflexivity].
    destruct (status_code resp =? 200)%Z; [|simpl; rewrite app_nil_r; reflexivity].
    destruct (json resp) as [data|e]; [|reflexivity].
    rewrite !bind_ok, org_page_gathered.
    destruct (org_page [] data) as [[items next]|e]; simpl; [|reflexivity].
    rewrite (IH next (all ++ items)), (IH next items), gathered_after_app.
    reflexivity.
Qed.

Lemma fetch_all_data_gathered (fuel : nat) :
  forall (url : value) (all : list value) (w : world),
    fetch_all_data_from requests_get fuel url all w
    = gathered_after all (fetch_all_data_from requests_get fuel url [] w).
Proof.
  induction fuel as [|fuel IH]; intros url all w; cbn [fetch_all_data_from].
  - destruct (py_truthy url); simpl; [reflexivity|]. rewrite app_nil_r. reflexivity.
  - destruct (py_truthy url); simpl; [|rewrite app_nil_r; reflexivity].
    destruct (requests_get url []) as [resp|e]; [|reflexivity].
    destruct (status_code resp =? 200)%Z; [|reflexivity].
    destruct (json resp) as [data|e]; [|reflexivity].
    rewrite !bind_ok, net_page_gathered.
    destruct (net_page [] data) as [[items next]|e]; simpl; [|reflexivity].
    rewrite (IH next (all ++ items)), (IH next items), gathered_after_app.
    reflexivity.
Qed.

(** X9.  What a loop has gathered so far is never dropped, reordered or
    looked at again: going on from a URL with [all] in hand gives what
    going on from that URL with nothing gives, the same requests and
    printed lines, the same exception if any, with [all] put in front of
    the entries returned. *)
Theorem pagination_keeps_gathered (fuel : nat) (url : value) (all : list value)
  (w : world) :
  org_fetch requests_get fuel url all w
  = gathered_after all (org_fetch requests_get fuel url [] w)
  /\ fetch_all_data_from requests_get fuel url all w
     = gathered_after all (fetch_all_data requests_get fuel url w).
Proof.
  split; [apply org_fetch_gathered|apply fetch_all_data_gathered].
Qed.

End Gathering.

(** ** The entries the flattener takes *)

Lemma org_row_record (entry : value) :
  is_organization_entry entry = true -> org_row entry = Ok (organization_record entry).
Proof.
  intros H. destruct entry as [ | | | | |l|d]; try discriminate H.
  unfold org_row, organization_record, resource_of. simpl in H.
  rewrite py_get_dict, bind_ok. unfold field.
  destruct (lookup "resource" d) as [r|]; [|reflexivity].
  destruct r as [ | | | | |l|r]; try discriminate H.
  rewrite !py_get_dict, !bind_ok.
  unfold optional_list in H. unfold list_field, field.
  destruct (lookup "identifier" r) as [ids|]; [|reflexivity].
  destruct ids as [ | | | | |ids|x]; try discriminate H.
  simpl py_iter. rewrite bind_ok.
  rewrite (mapM_identifier_values _ H), bind_ok.
  rewrite <- map_map, py_join_strings. reflexivity.
Qed.

Lemma py_join_cons (sep s : string) (x : value) (l : list value) :
  py_join sep (VStr s :: x :: l)
  = (t <- py_join sep (x :: l) ;; Ok (s ++ sep ++ t)%string).
Proof. reflexivity. Qed.

Lemma join_values_ok (items : list value) :
  match mapM (fun identifier => py_get identifier "value" (VStr "")) items with
  | Ok vals => is_ok (py_join ", " vals)
  | Raise _ => false
  end = forallb is_identifier items.
Proof.
  induction items as [|i items IH]; [reflexivity|].
  cbn [mapM forallb].
  destruct i as [ | | | | |l|d]; try reflexivity.
  rewrite py_get_dict, bind_ok.
  destruct (mapM (fun identifier => py_get identifier "value" (VStr "")) items)
    as [vals|e]; cbn [bind] in *.
  - rewrite <- IH. unfold field, is_identifier.
    destruct (lookup "value" d) as [v|].
    + destruct v; try reflexivity.
      destruct vals as [|x vals]; [reflexivity|].
      rewrite py_join_cons. destruct (py_join ", " (x :: vals)); reflexivity.
    + destruct vals as [|x vals]; [reflexivity|].
      rewrite py_join_cons. destruct (py_join ", " (x :: vals)); reflexivity.
  - rewrite <- IH. rewrite andb_false_r. reflexivity.
Qed.

Lemma flatten_tail_ok (org_id org_name : value) (items : list value) :
  is_ok (identifier_values <-
           mapM (fun identifier => py_get identifier "value" (VStr "")) items ;;
         identifier_str <- py_join ", " identifier_values ;;
         Ok [org_id; org_name; VStr identifier_str])
  = forallb is_identifier items.
Proof.
  rewrite <- join_values_ok.
  destruct (mapM (fun identifier => py_get identifier "value" (VStr "")) items)
    as [vals|e]; simpl; [|reflexivity].
  destruct (py_join ", " vals); reflexivity.
Qed.

(** X10.  The flattener of lines 60-71 goes through exactly on the entries
    that are objects whose [resource], when present, is an object whose
    [identifier], when present, is an array of objects with a string or no
    [value] (or an empty string or object); on every other entry it
    raises.  Nothing is asked of [id] and [name]. *)
Theorem org_row_domain (entry : value) :
  is_ok (org_row entry) = flattens entry.
Proof.
  destruct entry as [ | | | | |l|d]; try reflexivity.
  unfold org_row, flattens. rewrite py_get_dict, bind_ok. unfold field.
  destruct (lookup "resource" d) as [r|]; [|reflexivity].
  destruct r as [ | | | | |l|r]; try reflexivity.
  rewrite !py_get_dict, !bind_ok. unfold field.
  destruct (lookup "identifier" r) as [v|]; [|reflexivity].
  destruct v as [ | | | |s|l|x]; try reflexivity.
  - simpl py_iter. rewrite bind_ok, flatten_tail_ok.
    destruct s; reflexivity.
  - simpl py_iter. rewrite bind_ok, flatten_tail_ok. reflexivity.
  - simpl py_iter. rewrite bind_ok, flatten_tail_ok.
    destruct x as [|[k v] x]; reflexivity.
Qed.

Section Partial.

Variable requests_get : value -> list (string * string) -> result response.
Variable py_str : value -> string.
Variable open_error : string -> option string -> option exn.
Variable write_error : string -> option string -> string -> option exn.

Lemma mapM_length {A B : Type} (f : A -> result B) (l : list A) :
  forall l' : list B, mapM f l = Ok l' -> List.length l' = List.length l.
Proof.
  induction l as [|x l IH]; intros l' H; simpl in H.
  - injection H as <-. reflexivity.
  - destruct (f x) as [y|]; [|discriminate H]. simpl in H.
    destruct (mapM f l) as [ys|]; [|discriminate H].
    simpl in H. injection H as <-. simpl. rewrite (IH ys eq_refl). reflexivity.
Qed.

(** X11.  The file of the organizations is opened, and emptied, before the
    entries are flattened, and each row is written as soon as its entry is
    flattened.  When the file opens and an entry makes the flattener
    raise, or its row is refused by the file, after the header row and the
    rows before it were written, the exception leaves
    [export_org_id_to_csv], nothing is printed, no other file changes,
    and the file, whatever it held, now holds the header row and the rows
    of the entries before that one: the entries after it are lost. *)
Theorem bad_entry_leaves_partial_file
  (fuel : nat) (url : value) (filename : string) (w w1 : world)
  (good rest : list value) (bad : value) (rows : list (list value)) (e : exn) :
  org_fetch requests_get fuel url [] w = Some (w1, Ok (good ++ bad :: rest)) ->
  mapM org_row good = Ok rows ->
  open_error filename (Some "utf-8") = None ->
  writes_all write_error filename (Some "utf-8")
    (["id"; "name"; "identifiers"] :: map (map (field_text py_str)) rows) ->
  (org_row bad = Raise e
   \/ exists row : list value,
        org_row bad = Ok row
        /\ write_error filename (Some "utf-8")
             (csv_record (map (field_text py_str) row)) = Some e) ->
  exists w' : world,
    export_org_id_to_csv requests_get py_str open_error write_error fuel url filename w
    = Some (w', Raise e)
    /\ files w' filename
       = Some (csv_file ["id"; "name"; "identifiers"]
                 (map (map (field_text py_str)) rows))
    /\ (forall path : string, path <> filename -> files w' path = files w path)
    /\ stdout w' = stdout w1
    /\ requests w' = requests w1
    /\ List.length rows = List.length good.
Proof.
  intros Hfetch Hrows Hopen Hall Hbad.
  destruct (writes_all_rows py_str write_error filename good rows Hrows Hall)
    as [Hheader Hwrite].
  destruct (org_rows_records py_str good rows Hrows) as [Hlines _].
  assert (Hbad' : org_row bad = Raise e
                  \/ exists row : list value,
                       org_row bad = Ok row
                       /\ write_error filename (Some "utf-8") (writerow py_str row)
                          = Some e).
  { destruct Hbad as [Hbad|[row [Hrow Hrefused]]]; [left; exact Hbad|].
    right. exists row. split; [exact Hrow|].
    destruct (org_row_three_fields bad row Hrow) as [a [b [c ->]]].
    rewrite writerow_record. exact Hrefused. }
  exists (write_file filename
            (csv_file ["id"; "name"; "identifiers"]
               (map (map (field_text py_str)) rows)) w1).
  split.
  - unfold export_org_id_to_csv, org_write.
    rewrite Hfetch, Hopen, Hheader.
    rewrite (org_write_rows_bad py_str write_error filename good bad rest rows e _
               Hrows Hwrite Hbad').
    rewrite writerow_org_header, Hlines. reflexivity.
  - split; [simpl; rewrite String.eqb_refl; reflexivity|].
    split.
    + intros path Hpath. simpl.
      destruct (String.eqb_spec path filename); [contradiction|].
      rewrite (proj1 (org_fetch_world requests_get fuel url [] w w1 _ Hfetch)).
      reflexivity.
    + split; [reflexivity|]. split; [reflexivity|].
      exact (mapM_length org_row good rows Hrows).
Qed.

End Partial.

(** ** Extraction, page by page *)

(** X12.  Extracting the networks from everything the pages hold is
    extracting them page by page and putting the results end to end, in
    page order; the first page with an entry that raises decides the
    exception. *)
Theorem extract_networks_page_by_page (pages : list page) :
  extract_networks (all_entries_of pages)
  = (found <- mapM (fun p => extract_networks (entries_of (page_data p))) pages ;;
     Ok (List.concat found)).
Proof.
  induction pages as [|p pages IH]; [reflexivity|].
  change (all_entries_of (p :: pages))
    with (entries_of (page_data p) ++ all_entries_of pages).
  rewrite extract_networks_app, IH. cbn [mapM].
  destruct (extract_networks (entries_of (page_data p))) as [rows|e]; simpl;
    [|reflexivity].
  destruct (mapM (fun p => extract_networks (entries_of (page_data p))) pages);
    reflexivity.
Qed.

(** ** Joined identifiers in the file *)

Lemma has_special_app (a b : string) :
  has_special (a ++ b) = has_special a || has_special b.
Proof.
  induction a as [|c a IH]; simpl; [reflexivity|].
  rewrite IH, orb_assoc. reflexivity.
Qed.

(** X13.  The identifiers are joined with a comma, which is also the
    delimiter of the file: an organization with two identifiers or more
    has its [identifiers] field written between double quotes. *)
Theorem joined_identifiers_are_quoted (py_str : value -> string) (entry : value) :
  is_organization_entry entry = true ->
  2 <= List.length (list_field (resource_of entry) "identifier") ->
  exists (org_id org_name : value) (joined : string),
    org_row entry = Ok [org_id; org_name; VStr joined]
    /\ writerow py_str [org_id; org_name; VStr joined]
       = (csv_field (field_text py_str org_id) ++ ","
          ++ csv_field (field_text py_str org_name) ++ ","
          ++ String quotechar (double_quotes joined) ++ String quotechar ""
          ++ lineterminator)%string.
Proof.
  intros Hentry Hlen. rewrite (org_row_record entry Hentry).
  unfold organization_record. do 3 eexists. split; [reflexivity|].
  rewrite writerow_csv_line. unfold csv_line. simpl map. cbn [String.concat].
  assert (Hq : has_special
                 (String.concat ", "
                    (map identifier_value (list_field (resource_of entry) "identifier")))
               = true).
  { destruct (list_field (resource_of entry) "identifier") as [|x [|y l]];
      [simpl in Hlen; lia|simpl in Hlen; lia|].
    simpl map. cbn [String.concat]. rewrite !has_special_app.
    rewrite orb_true_iff. right. reflexivity. }
  unfold csv_field at 3. rewrite Hq.
  rewrite !string_app_assoc. reflexivity.
Qed.

(** ** Edges of the loops *)

Section Edges.

Variable requests_get : value -> list (string * string) -> result response.
Variable py_str : value -> string.
Variable open_error : string -> option string -> option exn.
Variable write_error : string -> option string -> string -> option exn.

(** X14.  The defaults of [data.get('entry', [])] and
    [data.get('link', [])], and the test ['entry' in data], cover a key
    that is missing, not one that is present with null, a number or a
    boolean: such an [entry], or such a [link] after a sound [entry],
    makes both loops raise [TypeError] at that page. *)
Theorem present_null_is_not_defaulted
  (hdrs : list (string * string)) (fuel : nat) (u : string)
  (data : list (string * value)) (key : string) (v : value)
  (all : list value) (w : world) :
  u <> "" ->
  requests_get (VStr u) hdrs = Ok (mkResponse 200 (Ok (VDict data))) ->
  (key = "entry"
   \/ (key = "link" /\ optional_list (fun _ => true) data "entry" = true)) ->
  lookup key data = Some v ->
  is_ok (py_iter v) = false ->
  (hdrs = headers ->
   org_fetch requests_get (S fuel) (VStr u) all w
   = Some (log_request (VStr u) hdrs w, Raise TypeError))
  /\ (hdrs = [] ->
      fetch_all_data_from requests_get (S fuel) (VStr u) all w
      = Some (log_request (VStr u) hdrs w, Raise TypeError)).
Proof.
  intros Hu Hget Hkey Hv Hiter.
  assert (Hraise : py_iter v = Raise TypeError).
  { destruct v; try discriminate Hiter; reflexivity. }
  assert (Horg : org_page all (VDict data) = Raise TypeError).
  { unfold org_page. rewrite !py_get_dict. unfold field.
    destruct Hkey as [->|[-> Hentry]].
    - rewrite Hv. simpl. rewrite Hraise. reflexivity.
    - rewrite Hv. unfold optional_list in Hentry.
      destruct (lookup "entry" data) as [entry|]; simpl.
      + destruct entry; try discriminate Hentry. simpl. rewrite Hraise. reflexivity.
      + rewrite Hraise. reflexivity. }
  assert (Hnet : net_page all (VDict data) = Raise TypeError).
  { unfold net_page. simpl py_contains. rewrite bind_ok, !py_get_dict. unfold field.
    destruct Hkey as [->|[-> Hentry]].
    - rewrite Hv. simpl. rewrite Hv. simpl. rewrite Hraise. reflexivity.
    - rewrite Hv. unfold optional_list in Hentry.
      destruct (lookup "entry" data) as [entry|] eqn:He; simpl.
      + rewrite He. destruct entry; try discriminate Hentry. simpl.
        rewrite Hraise. reflexivity.
      + rewrite Hraise. reflexivity. }
  split; intros ->.
  - rewrite (org_fetch_turn requests_get fuel u _ all w Hu Hget), Horg. reflexivity.
  - rewrite (fetch_all_data_turn requests_get fuel u _ all w Hu Hget), Hnet.
    reflexivity.
Qed.

(** X15.  On a page that is well formed the two loops do the same thing:
    they gather the same entries and go on to the same URL.  They differ
    only in the header they send, on a status other than 200 and on pages
    that are not well formed. *)
Theorem loops_agree_on_bundles (all : list value) (data : value) :
  is_bundle data = true ->
  org_page all data = net_page all data
  /\ org_page all data = Ok (all ++ entries_of data, next_of data).
Proof.
  intros H. rewrite (org_page_bundle all data H), (net_page_bundle all data H).
  split; reflexivity.
Qed.

(** X16.  Called with an empty URL, or with [None] or any other value that
    counts as false, [fetch_all_data] issues no request and returns the
    empty list, and [export_org_id_to_csv] issues no request and goes
    straight to the file: when the file cannot be opened that exception
    leaves the function and nothing has changed; when it opens and takes
    the header row, it holds the header row alone, whatever it held, the
    closing message is the one line printed, and no other file changes. *)
Theorem falsy_url_fetches_nothing
  (fuel : nat) (url : value) (filename : string) (w : world) :
  py_truthy url = false ->
  fetch_all_data requests_get fuel url w = Some (w, Ok [])
  /\ (forall e : exn,
        open_error filename (Some "utf-8") = Some e ->
        exists w' : world,
          export_org_id_to_csv requests_get py_str open_error write_error fuel url
            filename w
          = Some (w', Raise e)
          /\ requests w' = requests w
          /\ stdout w' = stdout w
          /\ files w' = files w)
  /\ (open_error filename (Some "utf-8") = None ->
      write_error filename (Some "utf-8") (csv_record ["id"; "name"; "identifiers"])
      = None ->
      exists w' : world,
        export_org_id_to_csv requests_get py_str open_error write_error fuel url
          filename w
        = Some (w', Ok tt)
        /\ requests w' = requests w
        /\ stdout w' = stdout w ++ [Line ("Data has been exported to " ++ filename)]
        /\ files w' filename = Some ("id,name,identifiers" ++ crlf)%string
        /\ (forall path : string, path <> filename -> files w' path = files w path)).
Proof.
  intros H. split; [exact (fetch_all_data_falsy requests_get fuel url [] w H)|].
  split.
  - intros e Hopen. exists w. unfold export_org_id_to_csv.
    rewrite (org_fetch_falsy requests_get fuel url [] w H), Hopen.
    repeat split.
  - intros Hopen Hheader.
    exists (print (Line ("Data has been exported to " ++ filename))
              (write_file filename (csv_record ["id"; "name"; "identifiers"]) w)).
    split.
    + unfold export_org_id_to_csv, org_write.
      rewrite (org_fetch_falsy requests_get fuel url [] w H), Hopen.
      rewrite writerow_org_header, Hheader. reflexivity.
    + split; [reflexivity|]. split; [reflexivity|].
      split; [simpl; rewrite String.eqb_refl; reflexivity|].
      intros path Hpath. simpl.
      destruct (String.eqb_spec path filename); [contradiction|reflexivity].
Qed.

End Edges.

(** ** The entries the extractor takes *)

Lemma extract_extensions_ok (r : list (string * value)) (exts : list value) :
  is_ok (extract_extensions (VDict r) exts) = forallb (extension_accepted r) exts.
Proof.
  induction exts as [|ext exts IH]; [reflexivity|].
  cbn [extract_extensions forallb].
  destruct ext as [ | | | | |l|d]; try reflexivity.
  unfold extension_accepted at 1. simpl py_getitem.
  destruct (lookup "url" d) as [url|]; [|reflexivity].
  rewrite bind_ok. unfold network_reference.
  destruct (py_eq_str url _); [|exact IH].
  rewrite py_get_dict, bind_ok. unfold field. simpl py_getitem.
  destruct (lookup "id" r) as [role_id|]; [|destruct (lookup "valueReference" d); reflexivity].
  rewrite bind_ok.
  destruct (lookup "valueReference" d) as [vr|].
  - destruct vr as [ | | | | |l|vr]; try reflexivity.
    rewrite py_get_dict, bind_ok, py_get_dict, bind_ok, <- IH.
    destruct (extract_extensions (VDict r) exts); reflexivity.
  - rewrite py_get_dict, bind_ok, py_get_dict, bind_ok, <- IH.
    destruct (extract_extensions (VDict r) exts); reflexivity.
Qed.

(** X17.  [extract_networks] returns exactly when every entry is an object
    with a [resource] object whose [extension], when present, is an array
    (or an empty string or object) of objects each with a [url] and, for
    those whose [url] is the network reference, a resource [id] and a
    [valueReference] that is absent or an object; on any other input it
    raises.  Extensions with another [url] may hold anything else. *)
Theorem extract_networks_domain (data : list value) :
  is_ok (extract_networks data) = forallb extracts data.
Proof.
  assert (Hentry : forall entry : value, is_ok (extract_entry entry) = extracts entry).
  { intros entry. destruct entry as [ | | | | |l|e]; try reflexivity.
    unfold extract_entry, extracts. simpl py_getitem.
    destruct (lookup "resource" e) as [res|]; [|reflexivity].
    rewrite bind_ok. destruct res as [ | | | | |l|r]; try reflexivity.
    rewrite py_get_dict, bind_ok. unfold field.
    destruct (lookup "extension" r) as [v|]; [|reflexivity].
    destruct v as [ | | | |s|l|x]; try reflexivity.
    - simpl py_iter. rewrite bind_ok. destruct s; reflexivity.
    - simpl py_iter. rewrite bind_ok. apply extract_extensions_ok.
    - simpl py_iter. rewrite bind_ok. destruct x as [|[k v] x]; reflexivity. }
  induction data as [|entry data IH]; [reflexivity|].
  cbn [extract_networks forallb]. rewrite <- Hentry, <- IH.
  destruct (extract_entry entry) as [rows|x]; [|reflexivity].
  simpl. destruct (extract_networks data); reflexivity.
Qed.

(** ** The further properties, worked on the examples *)

Lemma odd_server_serves (hdrs : list (string * string)) (p : page) :
  In p [loop_page; null_next_page] -> served odd_server hdrs p.
Proof.
  intros [<-|[<-|[]]]; (split; [discriminate|split; reflexivity]).
Qed.

Lemma org_fetch_effects_witness :
  exists w' : world,
    org_fetch example_server 2 (VStr "https://example.org/last-good") [] old_world
    = Some (w', Ok [cottage_hospital])
    /\ files w' = files old_world
    /\ requests w'
       = [mkRequest (VStr "https://example.org/last-good")
            [("Accept", "application/fhir+json")];
          mkRequest (VStr "https://example.org/down")
            [("Accept", "application/fhir+json")]]
    /\ stdout w' = [Line "Failed to retrieve data: 503"].
Proof.
  eexists. split; [reflexivity|].
  split; [|split; reflexivity].
  exact (proj1 (org_fetch_effects example_server 2
                  (VStr "https://example.org/last-good") [] old_world _ _ eq_refl)).
Defined.

Lemma fetch_all_data_effects_witness :
  exists (w' : world) (r : result (list value)),
    fetch_all_data example_server 2 (VStr "https://example.org/last-good") old_world
    = Some (w', r)
    /\ files w' = files old_world
    /\ stdout w' = stdout old_world.
Proof.
  do 2 eexists. split; [reflexivity|].
  destruct (fetch_all_data_effects example_server 2
              (VStr "https://example.org/last-good") old_world _ _ eq_refl)
    as [Hfiles [Hout _]].
  split; [exact Hfiles|exact Hout].
Defined.

Lemma export_org_writes_only_its_file_witness :
  exists w' : world,
    export_organizations garbled_server str_of_scalar always_opens always_writes 1
      old_world
    = Some (w', Raise (LibraryError "JSONDecodeError" "Expecting value"))
    /\ files w' "organization_ids.csv" = Some "old organizations"
    /\ files w' "associated_networks.csv" = Some "old networks"
    /\ stdout w' = [].
Proof.
  eexists.
  destruct (export_org_writes_only_its_file garbled_server str_of_scalar
              always_opens always_writes 1
              (VStr api_url_1) "organization_ids.csv" old_world _ _ eq_refl)
    as [_ [Hraise Hcall]].
  destruct (Hraise _ _ eq_refl) as [_ [_ [Hfiles Hout]]].
  destruct (Hcall eq_refl eq_refl) as [Hexport _].
  split; [exact Hexport|].
  rewrite Hfiles. split; [reflexivity|]. split; [reflexivity|exact Hout].
Defined.


Lemma first_next_link_decides_witness :
  org_fetch odd_server 2 (VStr "https://example.org/two-next") [] empty_world
  = Some (visit headers ["https://example.org/two-next"; "https://example.org/roles2"]
                empty_world,
          Ok [role; role])
  /\ fetch_all_data odd_server 2 (VStr "https://example.org/two-next") empty_world
     = Some (visit [] ["https://example.org/two-next"; "https://example.org/roles2"]
                   empty_world,
             Ok [role; role]).
Proof.
  split.
  - exact (eq_trans
             (proj1 (first_next_link_decides odd_server headers 1
                       "https://example.org/two-next"
                       [("entry", VList [role]);
                        ("link", VList [link_to "self" "https://example.org/two-next";
                                        link_to "next" "https://example.org/roles2";
                                        link_to "next" "https://example.org/elsewhere";
                                        VInt 0])]
                       [("relation", VStr "next");
                        ("url", VStr "https://example.org/roles2")]
                       [link_to "self" "https://example.org/two-next"]
                       [link_to "next" "https://example.org/elsewhere"; VInt 0]
                       (VStr "https://example.org/roles2") [] empty_world
                       ltac:(discriminate) eq_refl eq_refl eq_refl eq_refl eq_refl
                       eq_refl eq_refl)
                eq_refl)
             eq_refl).
  - exact (eq_trans
             (proj2 (first_next_link_decides odd_server [] 1
                       "https://example.org/two-next"
                       [("entry", VList [role]);
                        ("link", VList [link_to "self" "https://example.org/two-next";
                                        link_to "next" "https://example.org/roles2";
                                        link_to "next" "https://example.org/elsewhere";
                                        VInt 0])]
                       [("relation", VStr "next");
                        ("url", VStr "https://example.org/roles2")]
                       [link_to "self" "https://example.org/two-next"]
                       [link_to "next" "https://example.org/elsewhere"; VInt 0]
                       (VStr "https://example.org/roles2") [] empty_world
                       ltac:(discriminate) eq_refl eq_refl eq_refl eq_refl eq_refl
                       eq_refl eq_refl)
                eq_refl)
             eq_refl).
Defined.

Lemma next_link_without_url_witness :
  org_fetch odd_server 1 (VStr "https://example.org/bare-next") [] empty_world
  = Some (visit headers ["https://example.org/bare-next"] empty_world, Ok [role])
  /\ fetch_all_data odd_server 1 (VStr "https://example.org/bare-next") empty_world
     = Some (visit [] ["https://example.org/bare-next"] empty_world,
             Raise (KeyError "url")).
Proof.
  split.
  - exact (proj1 (next_link_without_url odd_server headers 0
                    "https://example.org/bare-next"
                    [("entry", VList [role]);
                     ("link", VList [link_to "self" "https://example.org/bare-next";
                                     VDict [("relation", VStr "next")];
                                     link_to "next" "https://example.org/page2"])]
                    [("relation", VStr "next")]
                    [link_to "self" "https://example.org/bare-next"]
                    [link_to "next" "https://example.org/page2"]
                    [] empty_world
                    ltac:(discriminate) eq_refl eq_refl eq_refl eq_refl eq_refl
                    eq_refl eq_refl)
             eq_refl).
  - exact (proj2 (next_link_without_url odd_server [] 0
                    "https://example.org/bare-next"
                    [("entry", VList [role]);
                     ("link", VList [link_to "self" "https://example.org/bare-next";
                                     VDict [("relation", VStr "next")];
                                     link_to "next" "https://example.org/page2"])]
                    [("relation", VStr "next")]
                    [link_to "self" "https://example.org/bare-next"]
                    [link_to "next" "https://example.org/page2"]
                    [] empty_world
                    ltac:(discriminate) eq_refl eq_refl eq_refl eq_refl eq_refl
                    eq_refl eq_refl)
             eq_refl).
Defined.

Lemma falsy_next_url_ends_pagination_witness :
  org_fetch odd_server 1 (VStr "https://example.org/null-next") [] empty_world
  = Some (visit headers ["https://example.org/null-next"] empty_world,
          Ok [cottage_hospital])
  /\ fetch_all_data odd_server 1 (VStr "https://example.org/null-next") empty_world
     = Some (visit [] ["https://example.org/null-next"] empty_world,
             Ok [cottage_hospital]).
Proof.
  split.
  - exact (proj1 (falsy_next_url_ends_pagination odd_server headers 0 null_next_page
                    (VDict [("relation", VStr "next"); ("url", VNone)]) [] empty_world
                    (odd_server_serves headers null_next_page
                       (or_intror (or_introl eq_refl)))
                    eq_refl eq_refl)
             eq_refl).
  - exact (proj2 (falsy_next_url_ends_pagination odd_server [] 0 null_next_page
                    (VDict [("relation", VStr "next"); ("url", VNone)]) [] empty_world
                    (odd_server_serves [] null_next_page
                       (or_intror (or_introl eq_refl)))
                    eq_refl eq_refl)
             eq_refl).
Defined.

Lemma loop_page_closed (hdrs : list (string * string)) (p : page) :
  In p [loop_page] ->
  served odd_server hdrs p
  /\ exists q : page, In q [loop_page] /\ next_of (page_data p) = VStr (page_url q).
Proof.
  intros [<-|[]]. split.
  - apply odd_server_serves. left. reflexivity.
  - exists loop_page. split; [left; reflexivity|reflexivity].
Qed.

Lemma pagination_cycle_never_returns_witness :
  org_fetch odd_server 1000 (VStr "https://example.org/loop") [] empty_world = None
  /\ fetch_all_data odd_server 1000 (VStr "https://example.org/loop") empty_world = None.
Proof.
  split.
  - exact (proj1 (pagination_cycle_never_returns odd_server headers [loop_page] 1000
                    loop_page empty_world (loop_page_closed headers)
                    (or_introl eq_refl))
             eq_refl).
  - exact (proj2 (pagination_cycle_never_returns odd_server [] [loop_page] 1000
                    loop_page empty_world (loop_page_closed [])
                    (or_introl eq_refl))
             eq_refl).
Defined.

Lemma bad_entry_leaves_partial_file_witness :
  exists w' : world,
    export_org_id_to_csv odd_server str_of_scalar always_opens ascii_locale 1
      (VStr "https://example.org/mixed") "organization_ids.csv" old_world
    = Some (w', Raise (AttributeError "get"))
    /\ files w' "organization_ids.csv"
       = Some (csv_file ["id"; "name"; "identifiers"]
                 [["484295"; "Cottage Hospital"; "A, B"]])
    /\ files w' "associated_networks.csv" = Some "old networks"
    /\ stdout w' = [].
Proof.
  destruct (bad_entry_leaves_partial_file odd_server str_of_scalar always_opens
              ascii_locale 1
              (VStr "https://example.org/mixed") "organization_ids.csv"
              old_world
              (visit headers ["https://example.org/mixed"] old_world)
              [cottage_hospital] [nameless] (VInt 3)
              [[VStr "484295"; VStr "Cottage Hospital"; VStr "A, B"]]
              (AttributeError "get") eq_refl eq_refl eq_refl
              (fun cells _ => eq_refl) (or_introl eq_refl))
    as [w' [Hrun [Hfile [Hothers [Hout _]]]]].
  exists w'. split; [exact Hrun|]. split; [exact Hfile|].
  split; [|exact Hout].
  rewrite (Hothers "associated_networks.csv") by discriminate. reflexivity.
Defined.

Lemma joined_identifiers_are_quoted_witness :
  exists (org_id org_name : value) (joined : string),
    org_row cottage_hospital = Ok [org_id; org_name; VStr joined]
    /\ writerow str_of_scalar [org_id; org_name; VStr joined]
       = (csv_field (field_text str_of_scalar org_id) ++ ","
          ++ csv_field (field_text str_of_scalar org_name) ++ ","
          ++ String quotechar (double_quotes joined) ++ String quotechar ""
          ++ lineterminator)%string.
Proof.
  exact (joined_identifiers_are_quoted str_of_scalar cottage_hospital eq_refl
           (le_n 2)).
Defined.

Lemma present_null_is_not_defaulted_witness :
  org_fetch (serve [mkPage "https://example.org/null-entry" (VDict [("entry", VNone)])])
    1 (VStr "https://example.org/null-entry") [] empty_world
  = Some (visit headers ["https://example.org/null-entry"] empty_world, Raise TypeError)
  /\ fetch_all_data
       (serve [mkPage "https://example.org/null-link"
                 (VDict [("entry", VList [role]); ("link", VNone)])])
       1 (VStr "https://example.org/null-link") empty_world
     = Some (visit [] ["https://example.org/null-link"] empty_world, Raise TypeError).
Proof.
  split.
  - exact (proj1 (present_null_is_not_defaulted
                    (serve [mkPage "https://example.org/null-entry"
                              (VDict [("entry", VNone)])])
                    headers 0 "https://example.org/null-entry" [("entry", VNone)]
                    "entry" VNone [] empty_world
                    ltac:(discriminate) eq_refl (or_introl eq_refl) eq_refl eq_refl)
             eq_refl).
  - exact (proj2 (present_null_is_not_defaulted
                    (serve [mkPage "https://example.org/null-link"
                              (VDict [("entry", VList [role]); ("link", VNone)])])
                    [] 0 "https://example.org/null-link"
                    [("entry", VList [role]); ("link", VNone)]
                    "link" VNone [] empty_world
                    ltac:(discriminate) eq_refl (or_intror (conj eq_refl eq_refl))
                    eq_refl eq_refl)
             eq_refl).
Defined.

Lemma loops_agree_on_bundles_witness :
  org_page [nameless] (page_data page1) = net_page [nameless] (page_data page1)
  /\ org_page [nameless] (page_data page1)
     = Ok ([nameless; cottage_hospital], VStr "https://example.org/page2").
Proof.
  exact (loops_agree_on_bundles [nameless] (page_data page1) eq_refl).
Defined.

Lemma falsy_url_fetches_nothing_witness :
  fetch_all_data down_server 0 VNone old_world = Some (old_world, Ok [])
  /\ (exists w' : world,
        export_org_id_to_csv down_server str_of_scalar never_opens always_writes 0
          (VStr "") "organization_ids.csv" old_world
        = Some (w', Raise (LibraryError "PermissionError" "Permission denied"))
        /\ requests w' = []
        /\ stdout w' = []
        /\ files w' = files old_world)
  /\ (exists w' : world,
        export_org_id_to_csv down_server str_of_scalar always_opens always_writes 0
          (VStr "") "organization_ids.csv" old_world
        = Some (w', Ok tt)
        /\ requests w' = []
        /\ stdout w' = [Line "Data has been exported to organization_ids.csv"]
        /\ files w' "organization_ids.csv" = Some ("id,name,identifiers" ++ crlf)%string
        /\ files w' "associated_networks.csv" = Some "old networks").
Proof.
  split; [|split].
  - exact (proj1 (falsy_url_fetches_nothing down_server str_of_scalar always_opens
                    always_writes 0 VNone "organization_ids.csv" old_world eq_refl)).
  - exact (proj1 (proj2 (falsy_url_fetches_nothing down_server str_of_scalar
                           never_opens always_writes 0 (VStr "")
                           "organization_ids.csv" old_world eq_refl))
             _ eq_refl).
  - destruct (proj2 (proj2 (falsy_url_fetches_nothing down_server str_of_scalar
                              always_opens always_writes 0 (VStr "")
                              "organization_ids.csv" old_world eq_refl))
                eq_refl eq_refl)
      as [w' [Hrun [Hreq [Hout [Hfile Hothers]]]]].
    exists w'. split; [exact Hrun|]. split; [exact Hreq|]. split; [exact Hout|].
    split; [exact Hfile|].
    rewrite (Hothers "associated_networks.csv") by discriminate. reflexivity.
Defined.
